(** * The airdrop claim service (oracle_server/src/airdrop/airdropService.ts)

    A shallow embedding of [AirdropService] and of the JavaScript primitives
    its behaviour depends on ([JSON.parse], property reads, truthiness, the
    unary plus), followed by the properties of the service.

    Conventions.
    - A JavaScript string is the list of its UTF-16 code units.
    - A JavaScript number is an IEEE 754 binary64 value, in the
      representation of the Standard Library's [SpecFloat].
    - A function that can throw returns [Exn + A]; a function that talks to
      the gateway or to the console runs in the monad [M], which records
      the calls in order. *)

From Stdlib Require Import List ZArith NArith Bool String Ascii Lia.
From Stdlib Require Import Floats.SpecFloat.
Import ListNotations.

Set Warnings "-register-all".
Local Open Scope Z_scope.

(** ** JavaScript strings *)

Definition CodeUnit := N.
Definition JsString := list CodeUnit.

(** An ASCII string literal of the source, as a list of code units. *)
Definition js (s : string) : JsString :=
  map N_of_ascii (list_ascii_of_string s).

Fixpoint jsstr_eqb (a b : JsString) : bool :=
  match a, b with
  | [], [] => true
  | x :: a', y :: b' => N.eqb x y && jsstr_eqb a' b'
  | _, _ => false
  end.

(** [a.join(sep)] on an array of strings. *)
Fixpoint join (sep : JsString) (l : list JsString) : JsString :=
  match l with
  | [] => []
  | [x] => x
  | x :: rest => x ++ sep ++ join sep rest
  end.

(** ** JavaScript numbers *)

Definition Number := spec_float.

Definition prec64 : Z := 53.
Definition emax64 : Z := 1024.

Definition NaN : Number := S754_nan.
Definition Infinity (neg : bool) : Number := S754_infinity neg.

(** The Number nearest to the integer [z] (ties to even). *)
Definition Number_of_Z (z : Z) : Number :=
  binary_normalize prec64 emax64 z 0 false.

(** The Number nearest to [(-1)^neg * m * 10^e]: the value of a decimal
    literal with digits [m] and decimal exponent [e]. *)
Definition Number_of_decimal (neg : bool) (m : N) (e : Z) : Number :=
  match m with
  | N0 => S754_zero neg
  | Npos p =>
      match e with
      | Zneg k =>
          let '(q, e', l) :=
            SFdiv_core_binary prec64 emax64 (Zpos p) 0 (Z.pow_pos 10 k) 0 in
          binary_round_aux prec64 emax64 neg q e' l
      | _ => binary_round prec64 emax64 neg (p * Z.to_pos (10 ^ e))%positive 0
      end
  end.

Definition Number_is_zero (n : Number) : bool :=
  match n with S754_zero _ => true | _ => false end.

Definition Number_is_nan (n : Number) : bool :=
  match n with S754_nan => true | _ => false end.

(** ** JavaScript values

    The values [JSON.parse] can produce, and [undefined]. An object is the
    list of its own properties in insertion order, each key once. *)

Inductive JsValue : Type :=
| VUndef
| VNull
| VBool (b : bool)
| VNum (n : Number)
| VStr (s : JsString)
| VArr (elems : list JsValue)
| VObj (props : list (JsString * JsValue)).

(** ** Exceptions *)

Inductive TypeErrorCause : Type :=
| ReadPropertyOfNullish (base : JsValue) (prop : JsString)
| CannotConvertToPrimitive.

Inductive Exn : Type :=
| SyntaxError
| TypeError (cause : TypeErrorCause)
| ValidateError (value : JsValue) (field_message : JsString) (message : JsString)
| Error (message : JsString)
| GatewayError (e : JsValue).

(** Code that can throw. *)
Definition Throws (A : Type) : Type := Exn + A.

Definition tret {A} (a : A) : Throws A := inr a.
Definition throw {A} (e : Exn) : Throws A := inl e.
Definition tbind {A B} (m : Throws A) (f : A -> Throws B) : Throws B :=
  match m with
  | inl e => inl e
  | inr a => f a
  end.

Declare Scope throws_scope.
Delimit Scope throws_scope with throws.
Notation "x <-! m ; k" := (tbind m (fun x => k))
  (at level 100, m at next level, right associativity) : throws_scope.

(** ** Property reads

    [v[k]] for a property name [k] that no built-in prototype defines; every
    name the service reads ([message] and the five claim fields) is one.
    Reading from [undefined] or [null] throws; a primitive or an array has no
    such property; an object answers with its own property. *)

Fixpoint lookup (k : JsString) (props : list (JsString * JsValue)) : option JsValue :=
  match props with
  | [] => None
  | (k', v) :: rest => if jsstr_eqb k k' then Some v else lookup k rest
  end.

Definition getProp (v : JsValue) (k : JsString) : Throws JsValue :=
  match v with
  | VUndef | VNull => throw (TypeError (ReadPropertyOfNullish v k))
  | VObj props =>
      match lookup k props with
      | Some x => tret x
      | None => tret VUndef
      end
  | _ => tret VUndef
  end.

(** [CreateDataProperty]: a key already present keeps its place and takes
    the new value, a new key goes last. *)
Fixpoint setProp (k : JsString) (v : JsValue) (props : list (JsString * JsValue))
  : list (JsString * JsValue) :=
  match props with
  | [] => [(k, v)]
  | (k', v') :: rest =>
      if jsstr_eqb k k' then (k', v) :: rest else (k', v') :: setProp k v rest
  end.

(** ** Truthiness ([ToBoolean]) *)

Definition ToBoolean (v : JsValue) : bool :=
  match v with
  | VUndef | VNull => false
  | VBool b => b
  | VNum n => negb (Number_is_zero n || Number_is_nan n)
  | VStr s => match s with [] => false | _ => true end
  | VArr _ | VObj _ => true
  end.

(** [a && b]: [b] is evaluated only when [a] is truthy. *)
Definition js_and (a : JsValue) (b : Throws JsValue) : Throws JsValue :=
  if ToBoolean a then b else tret a.

(** ** String to number ([StringToNumber], the grammar [StringNumericLiteral]) *)

Local Open Scope N_scope.

(** [StrWhiteSpaceChar]: WhiteSpace and LineTerminator. *)
Definition isStrWhiteSpaceChar (c : CodeUnit) : bool :=
  (c =? 9) || (c =? 10) || (c =? 11) || (c =? 12) || (c =? 13) || (c =? 32)
  || (c =? 160) || (c =? 5760) || ((8192 <=? c) && (c <=? 8202))
  || (c =? 8232) || (c =? 8233) || (c =? 8239) || (c =? 8287)
  || (c =? 12288) || (c =? 65279).

Definition isDecimalDigit (c : CodeUnit) : bool := (48 <=? c) && (c <=? 57).

Definition hexDigitValue (c : CodeUnit) : option N :=
  if (48 <=? c) && (c <=? 57) then Some (c - 48)
  else if (97 <=? c) && (c <=? 102) then Some (c - 87)
  else if (65 <=? c) && (c <=? 70) then Some (c - 55)
  else None.

(** The digit of a given radix (2, 8 or 16) that [c] denotes. *)
Definition radixDigitValue (radix : N) (c : CodeUnit) : option N :=
  match hexDigitValue c with
  | Some d => if d <? radix then Some d else None
  | None => None
  end.

Fixpoint dropWhile {A} (p : A -> bool) (l : list A) : list A :=
  match l with
  | [] => []
  | x :: rest => if p x then dropWhile p rest else l
  end.

Fixpoint span {A} (p : A -> bool) (l : list A) : list A * list A :=
  match l with
  | [] => ([], [])
  | x :: rest =>
      if p x then let '(a, b) := span p rest in (x :: a, b) else ([], l)
  end.

Definition trimStrWhiteSpace (s : JsString) : JsString :=
  rev (dropWhile isStrWhiteSpaceChar (rev (dropWhile isStrWhiteSpaceChar s))).

(** The value of a run of decimal digits, most significant first. *)
Definition decimalValue (ds : list CodeUnit) : N :=
  fold_left (fun acc d => 10 * acc + (d - 48)) ds 0.

(** The value of a run of digits of the given radix; [None] when the run
    holds another character. *)
Fixpoint radixValue (radix : N) (acc : N) (ds : list CodeUnit) : option N :=
  match ds with
  | [] => Some acc
  | d :: rest =>
      match radixDigitValue radix d with
      | Some v => radixValue radix (radix * acc + v) rest
      | None => None
      end
  end.

(** [NonDecimalIntegerLiteral]: 0x, 0o and 0b literals, unsigned. *)
Definition nonDecimalIntegerLiteral (t : JsString) : option N :=
  match t with
  | z :: c :: ((_ :: _) as ds) =>
      if negb (z =? 48) then None
      else if (c =? 120) || (c =? 88) then radixValue 16 0 ds
      else if (c =? 111) || (c =? 79) then radixValue 8 0 ds
      else if (c =? 98) || (c =? 66) then radixValue 2 0 ds
      else None
  | _ => None
  end.

(** [ExponentPart], or nothing: the decimal exponent it denotes. *)
Definition exponentPart (t : JsString) : option Z :=
  match t with
  | [] => Some 0%Z
  | c :: rest =>
      if (c =? 101) || (c =? 69) then
        let '(neg, ds) :=
          match rest with
          | 43 :: r => (false, r)
          | 45 :: r => (true, r)
          | _ => (false, rest)
          end in
        match ds with
        | [] => None
        | _ =>
            if forallb isDecimalDigit ds then
              Some (if neg then (- Z.of_N (decimalValue ds))%Z
                    else Z.of_N (decimalValue ds))
            else None
        end
      else None
  end.

(** [StrUnsignedDecimalLiteral] under the sign [neg]. *)
Definition strUnsignedDecimalLiteral (neg : bool) (t : JsString) : option Number :=
  if jsstr_eqb t (js "Infinity") then Some (Infinity neg)
  else
    let '(d1, r1) := span isDecimalDigit t in
    let '(d2, r2) :=
      match r1 with
      | 46 :: r => span isDecimalDigit r
      | _ => ([], r1)
      end in
    match d1 ++ d2 with
    | [] => None
    | ds =>
        match exponentPart r2 with
        | Some e =>
            Some (Number_of_decimal neg (decimalValue ds)
                    (e - Z.of_nat (List.length d2))%Z)
        | None => None
        end
    end.

(** [StrDecimalLiteral]: an optional sign, then the unsigned literal. *)
Definition strDecimalLiteral (t : JsString) : option Number :=
  match t with
  | c :: r =>
      if c =? 43 then strUnsignedDecimalLiteral false r
      else if c =? 45 then strUnsignedDecimalLiteral true r
      else strUnsignedDecimalLiteral false t
  | [] => None
  end.

Definition StringToNumber (s : JsString) : Number :=
  match trimStrWhiteSpace s with
  | [] => S754_zero false
  | t =>
      match nonDecimalIntegerLiteral t with
      | Some z => Number_of_Z (Z.of_N z)
      | None =>
          match strDecimalLiteral t with
          | Some n => n
          | None => NaN
          end
      end
  end.

Local Close Scope N_scope.

(** ** Conversion to number ([ToNumber], the unary plus)

    An object made by [JSON.parse] is converted through
    [Object.prototype.toString], unless an own property [toString] (never
    callable in such an object) hides it: then no conversion exists and the
    engine throws. An array is converted through [join]; the string of a
    Number converts back to that Number, [-0] becoming [+0]. *)

Fixpoint toStringThrows (v : JsValue) : bool :=
  match v with
  | VObj props =>
      match lookup (js "toString") props with
      | Some _ => true
      | None => false
      end
  | VArr l => existsb toStringThrows l
  | _ => false
  end.

Fixpoint ToNumber (v : JsValue) : Throws Number :=
  match v with
  | VUndef => tret NaN
  | VNull => tret (S754_zero false)
  | VBool b => tret (if b then Number_of_Z 1 else S754_zero false)
  | VNum n => tret n
  | VStr s => tret (StringToNumber s)
  | VObj _ =>
      if toStringThrows v then throw (TypeError CannotConvertToPrimitive)
      else tret NaN
  | VArr l =>
      if existsb toStringThrows l then throw (TypeError CannotConvertToPrimitive)
      else
        match l with
        | [] => tret (S754_zero false)
        | [x] =>
            match x with
            | VUndef | VNull => tret (S754_zero false)
            | VBool _ | VObj _ => tret NaN
            | VNum n => tret (if Number_is_zero n then S754_zero false else n)
            | VStr s => tret (StringToNumber s)
            | VArr _ => ToNumber x
            end
        | _ => tret NaN
        end
  end.

(** ** [JSON.parse]

    The JSON grammar of ECMA-404 as one left-to-right pass over the code
    units of the text: a stack of the arrays and objects still open, and the
    place reached in the token being read. *)

Module JSON.

Local Open Scope N_scope.

Inductive Frame : Type :=
| FArr (elems_rev : list JsValue)
| FObj (props : list (JsString * JsValue)) (key : option JsString).

Inductive NumPhase : Type :=
| NMinus | NZero | NInt | NDot | NFrac | NExpMark | NExpSign | NExp.

(** The number read so far: sign, digits of the integer and fraction parts
    as one integer, the count of fraction digits, and the exponent. *)
Record NumAcc : Type := mkNum {
  n_neg : bool;
  n_mant : N;
  n_scale : N;
  n_eneg : bool;
  n_exp : N
}.

Inductive Mode : Type :=
| MValue (mayClose : bool)
| MKey (mayClose : bool)
| MColon
| MAfter
| MString (isKey : bool) (acc_rev : list CodeUnit)
| MEscape (isKey : bool) (acc_rev : list CodeUnit)
| MUnicode (isKey : bool) (acc_rev : list CodeUnit) (more : nat) (v : N)
| MNumber (ph : NumPhase) (a : NumAcc)
| MLiteral (rest : JsString) (v : JsValue).

Record PState : Type := mkState {
  stack : list Frame;
  mode : Mode;
  result : option JsValue
}.

Definition initial : PState := mkState [] (MValue false) None.

Definition isJSONWhiteSpace (c : CodeUnit) : bool :=
  (c =? 9) || (c =? 10) || (c =? 13) || (c =? 32).

(** A value is complete: it is the text's value, the next element of the
    open array, or the value of the pending key of the open object. *)
Definition pushValue (v : JsValue) (stk : list Frame) : option PState :=
  match stk with
  | [] => Some (mkState [] MAfter (Some v))
  | FArr es :: rest => Some (mkState (FArr (v :: es) :: rest) MAfter None)
  | FObj props (Some k) :: rest =>
      Some (mkState (FObj (setProp k v props) None :: rest) MAfter None)
  | FObj _ None :: _ => None
  end.

Definition numberValue (a : NumAcc) : JsValue :=
  let e := if n_eneg a then (- Z.of_N (n_exp a))%Z else Z.of_N (n_exp a) in
  VNum (Number_of_decimal (n_neg a) (n_mant a) (e - Z.of_N (n_scale a))%Z).

Definition stepValue (mayClose : bool) (stk : list Frame) (c : CodeUnit)
  : option PState :=
  if isJSONWhiteSpace c then Some (mkState stk (MValue mayClose) None)
  else if c =? 34 then Some (mkState stk (MString false []) None)
  else if c =? 123 then Some (mkState (FObj [] None :: stk) (MKey true) None)
  else if c =? 91 then Some (mkState (FArr [] :: stk) (MValue true) None)
  else if c =? 93 then
    match mayClose, stk with
    | true, FArr [] :: rest => pushValue (VArr []) rest
    | _, _ => None
    end
  else if c =? 45 then
    Some (mkState stk (MNumber NMinus (mkNum true 0 0 false 0)) None)
  else if c =? 48 then
    Some (mkState stk (MNumber NZero (mkNum false 0 0 false 0)) None)
  else if isDecimalDigit c then
    Some (mkState stk (MNumber NInt (mkNum false (c - 48) 0 false 0)) None)
  else if c =? 116 then Some (mkState stk (MLiteral (js "rue") (VBool true)) None)
  else if c =? 102 then Some (mkState stk (MLiteral (js "alse") (VBool false)) None)
  else if c =? 110 then Some (mkState stk (MLiteral (js "ull") VNull) None)
  else None.

Definition stepKey (mayClose : bool) (stk : list Frame) (c : CodeUnit)
  : option PState :=
  if isJSONWhiteSpace c then Some (mkState stk (MKey mayClose) None)
  else if c =? 34 then Some (mkState stk (MString true []) None)
  else if c =? 125 then
    match mayClose, stk with
    | true, FObj props None :: rest => pushValue (VObj props) rest
    | _, _ => None
    end
  else None.

Definition stepAfter (st : PState) (c : CodeUnit) : option PState :=
  if isJSONWhiteSpace c then Some st
  else if c =? 44 then
    match stack st with
    | FArr _ :: _ => Some (mkState (stack st) (MValue false) None)
    | FObj _ None :: _ => Some (mkState (stack st) (MKey false) None)
    | _ => None
    end
  else if c =? 93 then
    match stack st with
    | FArr es :: rest => pushValue (VArr (rev es)) rest
    | _ => None
    end
  else if c =? 125 then
    match stack st with
    | FObj props None :: rest => pushValue (VObj props) rest
    | _ => None
    end
  else None.

(** The closing quote of a string: a key waits for its colon, a value is
    complete. *)
Definition endString (isKey : bool) (s : JsString) (stk : list Frame)
  : option PState :=
  if isKey then
    match stk with
    | FObj props None :: rest =>
        Some (mkState (FObj props (Some s) :: rest) MColon None)
    | _ => None
    end
  else pushValue (VStr s) stk.

Definition stepString (isKey : bool) (acc : list CodeUnit) (stk : list Frame)
  (c : CodeUnit) : option PState :=
  if c =? 34 then endString isKey (rev acc) stk
  else if c =? 92 then Some (mkState stk (MEscape isKey acc) None)
  else if c <? 32 then None
  else Some (mkState stk (MString isKey (c :: acc)) None).

Definition stepEscape (isKey : bool) (acc : list CodeUnit) (stk : list Frame)
  (c : CodeUnit) : option PState :=
  let plain (d : CodeUnit) := Some (mkState stk (MString isKey (d :: acc)) None) in
  if (c =? 34) || (c =? 92) || (c =? 47) then plain c
  else if c =? 98 then plain 8
  else if c =? 102 then plain 12
  else if c =? 110 then plain 10
  else if c =? 114 then plain 13
  else if c =? 116 then plain 9
  else if c =? 117 then Some (mkState stk (MUnicode isKey acc 4 0) None)
  else None.

Definition stepUnicode (isKey : bool) (acc : list CodeUnit) (more : nat) (v : N)
  (stk : list Frame) (c : CodeUnit) : option PState :=
  match hexDigitValue c, more with
  | Some d, S O => Some (mkState stk (MString isKey ((16 * v + d) :: acc)) None)
  | Some d, S n => Some (mkState stk (MUnicode isKey acc n (16 * v + d)) None)
  | _, _ => None
  end.

Definition isExponentMark (c : CodeUnit) : bool := (c =? 101) || (c =? 69).

(** May the number end in this phase? *)
Definition numberComplete (ph : NumPhase) : bool :=
  match ph with
  | NZero | NInt | NFrac | NExp => true
  | _ => false
  end.

Definition endNumber (ph : NumPhase) (a : NumAcc) (stk : list Frame)
  : option PState :=
  if numberComplete ph then pushValue (numberValue a) stk else None.

Definition stepNumber (ph : NumPhase) (a : NumAcc) (stk : list Frame)
  (c : CodeUnit) : option PState :=
  let continue ph' a' := Some (mkState stk (MNumber ph' a') None) in
  let finish := match endNumber ph a stk with
                | Some st => stepAfter st c
                | None => None
                end in
  let d := c - 48 in
  let intDigit := mkNum (n_neg a) (10 * n_mant a + d) (n_scale a) false 0 in
  let fracDigit := mkNum (n_neg a) (10 * n_mant a + d) (n_scale a + 1) false 0 in
  let expDigit :=
    mkNum (n_neg a) (n_mant a) (n_scale a) (n_eneg a) (10 * n_exp a + d) in
  match ph with
  | NMinus =>
      if c =? 48 then continue NZero a
      else if isDecimalDigit c then continue NInt intDigit
      else None
  | NZero =>
      if c =? 46 then continue NDot a
      else if isExponentMark c then continue NExpMark a
      else finish
  | NInt =>
      if isDecimalDigit c then continue NInt intDigit
      else if c =? 46 then continue NDot a
      else if isExponentMark c then continue NExpMark a
      else finish
  | NDot => if isDecimalDigit c then continue NFrac fracDigit else None
  | NFrac =>
      if isDecimalDigit c then continue NFrac fracDigit
      else if isExponentMark c then continue NExpMark a
      else finish
  | NExpMark =>
      if c =? 43 then continue NExpSign a
      else if c =? 45 then
        continue NExpSign (mkNum (n_neg a) (n_mant a) (n_scale a) true 0)
      else if isDecimalDigit c then continue NExp expDigit
      else None
  | NExpSign => if isDecimalDigit c then continue NExp expDigit else None
  | NExp => if isDecimalDigit c then continue NExp expDigit else finish
  end.

Definition stepLiteral (rest : JsString) (v : JsValue) (stk : list Frame)
  (c : CodeUnit) : option PState :=
  match rest with
  | [] => None
  | x :: rest' =>
      if c =? x then
        match rest' with
        | [] => pushValue v stk
        | _ => Some (mkState stk (MLiteral rest' v) None)
        end
      else None
  end.

Definition step (st : PState) (c : CodeUnit) : option PState :=
  match mode st with
  | MValue mayClose => stepValue mayClose (stack st) c
  | MKey mayClose => stepKey mayClose (stack st) c
  | MColon =>
      if isJSONWhiteSpace c then Some st
      else if c =? 58 then Some (mkState (stack st) (MValue false) None)
      else None
  | MAfter => stepAfter st c
  | MString k acc => stepString k acc (stack st) c
  | MEscape k acc => stepEscape k acc (stack st) c
  | MUnicode k acc more v => stepUnicode k acc more v (stack st) c
  | MNumber ph a => stepNumber ph a (stack st) c
  | MLiteral rest v => stepLiteral rest v (stack st) c
  end.

Fixpoint run (st : PState) (text : JsString) : option PState :=
  match text with
  | [] => Some st
  | c :: rest =>
      match step st c with
      | Some st' => run st' rest
      | None => None
      end
  end.

(** The end of the text: a number still being read ends here, and the text
    is a value exactly when nothing is left open. *)
Definition finish (st : PState) : option JsValue :=
  let st' := match mode st with
             | MNumber ph a => endNumber ph a (stack st)
             | _ => Some st
             end in
  match st' with
  | Some (mkState [] MAfter (Some v)) => Some v
  | _ => None
  end.

Definition parse (text : JsString) : Throws JsValue :=
  match run initial text with
  | Some st =>
      match finish st with
      | Some v => tret v
      | None => throw SyntaxError
      end
  | None => throw SyntaxError
  end.

End JSON.

(** ** The process environment

    [process.env.X] is a string, or [undefined] when the variable is unset. *)

Definition EnvVal := option JsString.

Record ProcessEnv : Type := mkEnv {
  SUI_GATEWAY_ENDPOINT : EnvVal;
  ORACLE_ADDRESS : EnvVal;
  ORACLE_CONTRACT_ENTRY_FUNCTION : EnvVal;
  ORACLE_CONTRACT_ADMIN_IDENTIFIER : EnvVal;
  ORACLE_CONTRACT_PACKAGE : EnvVal;
  ORACLE_CONTRACT_MODULE : EnvVal
}.

(** [x || dflt] on such a value: the unset variable and the empty string
    both give the default. *)
Definition orDefault (x : EnvVal) (dflt : JsString) : JsString :=
  match x with
  | Some ((_ :: _) as s) => s
  | _ => dflt
  end.

(** The string a string concatenation makes of such a value. *)
Definition envToString (x : EnvVal) : JsString :=
  match x with
  | Some s => s
  | None => js "undefined"
  end.

(** ** The gateway SDK *)

Module Gateway.

(** Modelled from the spec: the module [../sdk/gateway] is not among the
    sources. An owned object as [bulkFetchObjects] lists it, with the two
    members the service reads. *)
Module SuiObject.
Record t : Type := mk { id : JsString; objType : JsString }.
End SuiObject.

(** Modelled from the spec: the module [../sdk/gateway] is not among the
    sources. A created object as the effects summary lists it. *)
Module Created.
Record t : Type := mk { id : JsString }.
End Created.

(** Modelled from the spec: the result type of [callMoveFunction] is
    declared in [../sdk/gateway]. The path the service reads in it,
    [result.objectEffectsSummary.created_objects]. *)
Record ObjectEffectsSummary : Type := mkSummary {
  created_objects : list Created.t
}.

Record MoveCallResult : Type := mkResult {
  objectEffectsSummary : ObjectEffectsSummary
}.

(** The object literal [request] of [executeMoveCall]. *)
Record MoveCallRequest : Type := mkRequest {
  args : list JsValue;
  function : EnvVal;
  gasBudget : Z;
  gasObjectId : JsString;
  module : JsString;
  packageObjectId : JsString;
  sender : EnvVal
}.

(** Modelled from the spec: the class [Connection] of [../sdk/gateway] is
    not among the sources. Its two methods, each answering with a value or
    throwing. *)
Record Connection : Type := mkConnection {
  bulkFetchObjects : EnvVal -> Throws (list SuiObject.t);
  callMoveFunction : MoveCallRequest -> Throws MoveCallResult
}.

End Gateway.

Import Gateway.

(** ** Effects

    What the service does to the outside, in order. *)

Inductive Event : Type :=
| NewConnection (endpoint : EnvVal)
| BulkFetchObjects (address : EnvVal)
| CallMoveFunction (request : MoveCallRequest)
| ConsoleInfo (created : list Created.t).

(** The events that reach the chain: opening the connection, the query and
    the submission. *)
Definition isChainIO (e : Event) : bool :=
  match e with
  | NewConnection _ | BulkFetchObjects _ | CallMoveFunction _ => true
  | ConsoleInfo _ => false
  end.

(** An asynchronous computation: its outcome (a rejection is [inl]) and the
    events it caused before settling. *)
Definition M (A : Type) : Type := Throws A * list Event.

Definition ret {A} (a : A) : M A := (inr a, []).
Definition reject {A} (e : Exn) : M A := (inl e, []).
Definition lift {A} (r : Throws A) : M A := (r, []).
Definition emit (e : Event) : M unit := (inr tt, [e]).

Definition bind {A B} (m : M A) (f : A -> M B) : M B :=
  match m with
  | (inl e, t) => (inl e, t)
  | (inr a, t) => let '(r, t') := f a in (r, t ++ t')
  end.

Declare Scope service_scope.
Delimit Scope service_scope with service.
Notation "x <- m ;; k" := (bind m (fun x => k))
  (at level 100, m at next level, right associativity) : service_scope.
Notation "' pat <- m ;; k" := (bind m (fun x => let 'pat := x in k))
  (at level 100, pat pattern, m at next level, right associativity) : service_scope.
Notation "m ;; k" := (bind m (fun _ => k))
  (at level 100, right associativity) : service_scope.

Definition outcome {A} (m : M A) : Throws A := fst m.
Definition trace {A} (m : M A) : list Event := snd m.

(** ** The service *)

Definition DEFAULT_GAS_BUDGET : Z := 2000.

Record AirdropClaimRequest : Type := mkClaimRequest {
  wallet_message : JsString;
  signature : JsString
}.

(** The members are whatever the parsed message holds under these names:
    the type guard checks truthiness, not the type. *)
Record AirdropClaimResponse : Type := mkClaimResponse {
  source_chain : JsValue;
  source_contract_address : JsValue;
  source_token_id : JsValue;
  sui_explorer_link : JsString
}.

(** [`${a}`] for an array of plain objects. *)
Definition arrayToString {A} (a : list A) : JsString :=
  join (js ",") (map (fun _ => js "[object Object]") a).

(** User Defined Type Guard for AirdropClaimInfo: the value of the [&&]
    chain. *)
Definition isAirdropClaimInfo (arg : JsValue) : Throws JsValue :=
  (a <-! getProp arg (js "source_chain");
   js_and a (
   b <-! getProp arg (js "source_contract_address");
   js_and b (
   c <-! getProp arg (js "source_token_id");
   js_and c (
   d <-! getProp arg (js "source_owner_address");
   js_and d (
   getProp arg (js "destination_sui_address"))))))%throws.

Definition parseClaimInfo (data : JsValue) : Throws JsValue :=
  (message <-! getProp data (js "message");
   guard <-! isAirdropClaimInfo message;
   if ToBoolean guard then tret message
   else throw (ValidateError message (js "Wrong format")
                 (js "Wrong format for wallet message")))%throws.

Definition formatObjectId (id : JsString) : JsString := js "0x" ++ id.

Definition GAS_COIN_TYPE : JsString := js "0x2::Coin::Coin<0x2::GAS::GAS>".

Section Service.

Variable env : ProcessEnv.

(** [new Connection(endpoint)] of the gateway SDK: the connection the
    constructor gives for an endpoint. *)
Variable Connection_new : EnvVal -> Connection.

Local Open Scope service_scope.

Definition getPackageAndModule : JsString * JsString :=
  let package_name := orDefault (ORACLE_CONTRACT_PACKAGE env) (js "0x2") in
  let module_name :=
    orDefault (ORACLE_CONTRACT_MODULE env) (js "CrossChainAirdrop") in
  (package_name, module_name).

Definition oracle_object_identifier : JsString :=
  join (js "::") [fst getPackageAndModule; snd getPackageAndModule]
  ++ js "::" ++ envToString (ORACLE_CONTRACT_ADMIN_IDENTIFIER env).

Definition isGasCoin (o : SuiObject.t) : bool :=
  jsstr_eqb (SuiObject.objType o) GAS_COIN_TYPE.

Definition isOracle (o : SuiObject.t) : bool :=
  jsstr_eqb (SuiObject.objType o) oracle_object_identifier.

Definition getGasAndOracle (connection : Connection) (oracleAddress : EnvVal)
  : M (JsString * JsString) :=
  emit (BulkFetchObjects oracleAddress) ;;
  objects <- lift (bulkFetchObjects connection oracleAddress) ;;
  gasCoin <- lift (match filter isGasCoin objects with
                   | o :: _ => tret (SuiObject.id o)
                   | [] => throw (TypeError (ReadPropertyOfNullish VUndef (js "id")))
                   end) ;;
  let oracle := filter isOracle objects in
  if negb (Nat.eqb (List.length oracle) 1) then
    reject (Error (js "Unexpected number of oracle object: " ++ arrayToString oracle))
  else
    oracle0 <- lift (match oracle with
                     | o :: _ => tret (SuiObject.id o)
                     | [] => throw (TypeError (ReadPropertyOfNullish VUndef (js "id")))
                     end) ;;
    ret (formatObjectId gasCoin, formatObjectId oracle0).

(** The object literal [request] of [executeMoveCall], from the resolved
    identifiers, the three claim members and the converted token id. *)
Definition moveCallRequest (oracleAddress : EnvVal)
  (gasObjectId oracleObjectId : JsString)
  (destination_sui_address source_contract_address : JsValue)
  (tokenId : Number) : MoveCallRequest :=
  let name := js "BoredApeYachtClub" in
  let tokenUri := js "ipfs://abc" in
  let args := [VStr oracleObjectId;
               destination_sui_address;
               source_contract_address;
               VNum tokenId;
               VStr name;
               VStr tokenUri] in
  let '(packageObjectId, module) := getPackageAndModule in
  {| args := args;
     function := ORACLE_CONTRACT_ENTRY_FUNCTION env;
     gasBudget := DEFAULT_GAS_BUDGET;
     gasObjectId := gasObjectId;
     module := module;
     packageObjectId := packageObjectId;
     sender := oracleAddress |}.

Definition executeMoveCall (connection : Connection) (claimInfo : JsValue)
  : M JsString :=
  let oracleAddress := ORACLE_ADDRESS env in
  '(gasObjectId, oracleObjectId) <- getGasAndOracle connection oracleAddress ;;
  destination_sui_address <- lift (getProp claimInfo (js "destination_sui_address")) ;;
  source_contract_address <- lift (getProp claimInfo (js "source_contract_address")) ;;
  source_token_id <- lift (getProp claimInfo (js "source_token_id")) ;;
  tokenId <- lift (ToNumber source_token_id) ;;
  let request :=
    moveCallRequest oracleAddress gasObjectId oracleObjectId
      destination_sui_address source_contract_address tokenId in
  emit (CallMoveFunction request) ;;
  result <- lift (callMoveFunction connection request) ;;
  let created := created_objects (objectEffectsSummary result) in
  if negb (Nat.eqb (List.length created) 1) then
    reject (Error (js "Unexpected number of objects created: " ++ arrayToString created))
  else
    emit (ConsoleInfo created) ;;
    lift (match created with
          | o :: _ => tret (Created.id o)
          | [] => throw (TypeError (ReadPropertyOfNullish VUndef (js "id")))
          end).

Definition EXPLORER_LINK : JsString :=
  js "https://djgd7fpxio1yh.cloudfront.net/objects/7bc832ec31709638cd8d9323e90edf332gff4389".

Definition claim (claimMessage : AirdropClaimRequest) : M AirdropClaimResponse :=
  let wallet_message := wallet_message claimMessage in
  data <- lift (JSON.parse wallet_message) ;;
  claimInfo <- lift (parseClaimInfo data) ;;
  emit (NewConnection (SUI_GATEWAY_ENDPOINT env)) ;;
  let connection := Connection_new (SUI_GATEWAY_ENDPOINT env) in
  executeMoveCall connection claimInfo ;;
  source_chain <- lift (getProp claimInfo (js "source_chain")) ;;
  source_contract_address <- lift (getProp claimInfo (js "source_contract_address")) ;;
  source_token_id <- lift (getProp claimInfo (js "source_token_id")) ;;
  ret {| source_chain := source_chain;
         source_contract_address := source_contract_address;
         source_token_id := source_token_id;
         sui_explorer_link := EXPLORER_LINK |}.

End Service.

(** ** The outcome of each stage

    What the stages of a claim amount to once the effects are set apart;
    the equations of the next part relate them to the service. *)

(** The five members the type guard reads. *)
Definition claimFields : list JsString :=
  [js "source_chain"; js "source_contract_address"; js "source_token_id";
   js "source_owner_address"; js "destination_sui_address"].

(** The member [k] of an object, [undefined] when it has none. *)
Definition member (props : list (JsString * JsValue)) (k : JsString) : JsValue :=
  match lookup k props with
  | Some v => v
  | None => VUndef
  end.

Definition ownProps (v : JsValue) : list (JsString * JsValue) :=
  match v with
  | VObj props => props
  | _ => []
  end.

(** Reading [id] from the missing first element of an empty array. *)
Definition noGasCoin : Exn := TypeError (ReadPropertyOfNullish VUndef (js "id")).

Definition oracleCountError (oracle : list SuiObject.t) : Exn :=
  Error (js "Unexpected number of oracle object: " ++ arrayToString oracle).

Definition createdCountError (created : list Created.t) : Exn :=
  Error (js "Unexpected number of objects created: " ++ arrayToString created).

Definition wrongFormat (value : JsValue) : Exn :=
  ValidateError value (js "Wrong format") (js "Wrong format for wallet message").

Section Outcomes.

Variable env : ProcessEnv.

(** The resolver on the list the gateway answered with. *)
Definition resolve (objects : list SuiObject.t) : Throws (JsString * JsString) :=
  match filter isGasCoin objects with
  | [] => inl noGasCoin
  | g :: _ =>
      match filter (isOracle env) objects with
      | [o] => inr (formatObjectId (SuiObject.id g), formatObjectId (SuiObject.id o))
      | oracle => inl (oracleCountError oracle)
      end
  end.

(** The submission and the check of its result. *)
Definition submit (connection : Connection) (request : MoveCallRequest)
  : M JsString :=
  match callMoveFunction connection request with
  | inl e => (inl e, [CallMoveFunction request])
  | inr result =>
      let created := created_objects (objectEffectsSummary result) in
      match created with
      | [o] => (inr (Created.id o), [CallMoveFunction request; ConsoleInfo created])
      | _ => (inl (createdCountError created), [CallMoveFunction request])
      end
  end.

(** The response of a claim that went through. *)
Definition response (props : list (JsString * JsValue)) : AirdropClaimResponse :=
  {| source_chain := member props (js "source_chain");
     source_contract_address := member props (js "source_contract_address");
     source_token_id := member props (js "source_token_id");
     sui_explorer_link := EXPLORER_LINK |}.

End Outcomes.

(** ** A concrete deployment

    The request of the [@example] of [AirdropClaimRequest], an environment
    and a gateway holding one gas coin and one oracle object. *)

Module Example.

(** A string literal of JSON text, written with ['] for the quotation
    mark. *)
Definition json (s : string) : JsString :=
  map (fun c => if N.eqb c 39 then 34%N else c) (js s).

Definition text_of (token_id : string) : JsString :=
  json "{'domain':{'chainId':1,'name':'SuiDrop','version':'1'},'message':{'source_chain':'ethereum','source_contract_address':'0xBC4CA0EdA7647A8aB7C2061c2E118A18a936f13D','source_token_id':"
  ++ json token_id ++
  json ",'source_owner_address':'0x09dbc4a902199bbe7f7ec29b3714731786f2e878','destination_sui_address':'0xa5e6dbcf33730ace6ec8b400ff4788c1f150ff7e'},'primaryType':'ClaimRequest','types':{'EIP712Domain':[{'name':'name','type':'string'},{'name':'version','type':'string'},{'name':'chainId','type':'uint256'}],'ClaimRequest':[{'name':'source_chain','type':'string'},{'name':'source_contract_address','type':'string'},{'name':'source_token_id','type':'string'},{'name':'source_owner_address','type':'string'},{'name':'destination_sui_address','type':'string'}]}}".

Definition request_of (token_id : string) : AirdropClaimRequest :=
  {| wallet_message := text_of token_id; signature := js "abc" |}.

(** The [@example] itself: token id ["8937"]. *)
Definition request : AirdropClaimRequest := request_of "'8937'".

Definition env : ProcessEnv :=
  {| SUI_GATEWAY_ENDPOINT := Some (js "http://127.0.0.1:5001");
     ORACLE_ADDRESS := Some (js "0x3e1d2ea5d62a4d0c5e1a4c0b8b9d607d5a1c7f11");
     ORACLE_CONTRACT_ENTRY_FUNCTION := Some (js "claim");
     ORACLE_CONTRACT_ADMIN_IDENTIFIER := Some (js "CrossChainAirdropOracle");
     ORACLE_CONTRACT_PACKAGE := None;
     ORACLE_CONTRACT_MODULE := None |}.

Definition gasObject : SuiObject.t :=
  SuiObject.mk (js "1f0a") GAS_COIN_TYPE.

Definition oracleObject : SuiObject.t :=
  SuiObject.mk (js "9c3b")
    (js "0x2::CrossChainAirdrop::CrossChainAirdropOracle").

Definition otherObject : SuiObject.t :=
  SuiObject.mk (js "77aa") (js "0x2::DevNetNFT::DevNetNFT").

(** A gateway whose account owns [objects] and whose submission creates
    the objects [created]. *)
Definition gateway (objects : list SuiObject.t) (created : list Created.t)
  (endpoint : EnvVal) : Connection :=
  {| bulkFetchObjects := fun _ => tret objects;
     callMoveFunction := fun _ => tret (mkResult (mkSummary created)) |}.

Definition objects : list SuiObject.t := [otherObject; gasObject; oracleObject].

Definition created : list Created.t :=
  [Created.mk (js "7bc832ec31709638cd8d9323e90edf332gff4389")].

(** Text that is no JSON: the payload breaks off. *)
Definition malformed : AirdropClaimRequest :=
  {| wallet_message := json "{'message':{'source_chain':'ethereum'";
     signature := js "abc" |}.

(** A payload whose claim lacks [destination_sui_address]. *)
Definition incomplete : AirdropClaimRequest :=
  {| wallet_message :=
       json "{'message':{'source_chain':'ethereum','source_contract_address':'0xBC4CA0EdA7647A8aB7C2061c2E118A18a936f13D','source_token_id':'8937','source_owner_address':'0x09dbc4a902199bbe7f7ec29b3714731786f2e878'}}";
     signature := js "abc" |}.

(** A payload with no [message] member at all. *)
Definition empty_payload : AirdropClaimRequest :=
  {| wallet_message := json "{}"; signature := js "abc" |}.

(** Token ids that are no decimal integer. *)
Definition non_numeric : AirdropClaimRequest := request_of "'abc'".
Definition blank : AirdropClaimRequest := request_of "' '".

(** An account with two oracle objects and no gas coin. *)
Definition two_oracles : list SuiObject.t := [oracleObject; oracleObject].

(** An account whose object ids already carry the prefix. *)
Definition prefixed : list SuiObject.t :=
  [SuiObject.mk (js "0x1f0a") GAS_COIN_TYPE;
   SuiObject.mk (js "0x9c3b")
     (js "0x2::CrossChainAirdrop::CrossChainAirdropOracle")].

(** What a second mint creates. *)
Definition created' : list Created.t :=
  [Created.mk (js "00d1f4a6c2b85e3907aa41c6f0e2b7d9c8a5e613")].

(** A submission that creates two objects. *)
Definition created_twice : list Created.t := created ++ created'.

(** Payloads that are [null], or hold [null] under [message]. *)
Definition null_payload : AirdropClaimRequest :=
  {| wallet_message := json "null"; signature := js "abc" |}.

Definition null_message : AirdropClaimRequest :=
  {| wallet_message := json "{'message':null}"; signature := js "abc" |}.

(** A token id that is an object hiding [toString]. *)
Definition hidden_toString : AirdropClaimRequest :=
  request_of "{'toString':1}".

(** The claim of [request] under another owner address, with a member
    more, in a payload without the typed-data members. *)
Definition other_owner : AirdropClaimRequest :=
  {| wallet_message :=
       json "{'message':{'memo':[1,2],'source_owner_address':'0x0000000000000000000000000000000000000001','destination_sui_address':'0xa5e6dbcf33730ace6ec8b400ff4788c1f150ff7e','source_token_id':'8937','source_contract_address':'0xBC4CA0EdA7647A8aB7C2061c2E118A18a936f13D','source_chain':'ethereum'}}";
     signature := js "" |}.

(** An account with two gas coins around the oracle object. *)
Definition secondGasObject : SuiObject.t :=
  SuiObject.mk (js "2e0b") GAS_COIN_TYPE.

Definition two_gas : list SuiObject.t :=
  [otherObject; gasObject; oracleObject; secondGasObject].

(** A gateway whose query fails, and one whose submission fails. *)
Definition failure : Exn := GatewayError (VStr (js "ECONNREFUSED")).

Definition failing_query (endpoint : EnvVal) : Connection :=
  {| bulkFetchObjects := fun _ => throw failure;
     callMoveFunction := fun _ => tret (mkResult (mkSummary created)) |}.

Definition failing_submission (endpoint : EnvVal) : Connection :=
  {| bulkFetchObjects := fun _ => tret objects;
     callMoveFunction := fun _ => throw failure |}.

(** An environment with nothing set, and one with the contract set. *)
Definition env_unset : ProcessEnv :=
  {| SUI_GATEWAY_ENDPOINT := None;
     ORACLE_ADDRESS := None;
     ORACLE_CONTRACT_ENTRY_FUNCTION := None;
     ORACLE_CONTRACT_ADMIN_IDENTIFIER := None;
     ORACLE_CONTRACT_PACKAGE := None;
     ORACLE_CONTRACT_MODULE := None |}.

Definition env_set : ProcessEnv :=
  {| SUI_GATEWAY_ENDPOINT := Some (js "http://127.0.0.1:5001");
     ORACLE_ADDRESS := Some (js "0x3e1d2ea5d62a4d0c5e1a4c0b8b9d607d5a1c7f11");
     ORACLE_CONTRACT_ENTRY_FUNCTION := Some (js "claim");
     ORACLE_CONTRACT_ADMIN_IDENTIFIER := Some (js "Oracle");
     ORACLE_CONTRACT_PACKAGE := Some (js "0x5a");
     ORACLE_CONTRACT_MODULE := Some [] |}.

(** The gateway of the deployment. *)
Definition Connection_new : EnvVal -> Connection := gateway objects created.

(** The payload of [request] and the claim in it. *)
Definition data : JsValue :=
  Eval vm_compute in
    match JSON.parse (wallet_message request) with
    | inr v => v
    | inl _ => VUndef
    end.

Definition claimInfo : JsValue :=
  Eval vm_compute in
    match getProp data (js "message") with
    | inr v => v
    | inl _ => VUndef
    end.

End Example.

(** * Properties *)

(** ** The primitives on concrete inputs *)

Example StringToNumber_decimal : StringToNumber (js "8937") = Number_of_Z 8937.
Proof. reflexivity. Qed.

Example StringToNumber_padded : StringToNumber (js "  12 ") = Number_of_Z 12.
Proof. reflexivity. Qed.

Example StringToNumber_blank : StringToNumber (js " ") = Number_of_Z 0.
Proof. reflexivity. Qed.

Example StringToNumber_letters : StringToNumber (js "abc") = NaN.
Proof. reflexivity. Qed.

Example StringToNumber_hex : StringToNumber (js "0x1F") = Number_of_Z 31.
Proof. reflexivity. Qed.

Example StringToNumber_exponent : StringToNumber (js "1e3") = Number_of_Z 1000.
Proof. reflexivity. Qed.

Example StringToNumber_fraction :
  StringToNumber (js "-1.5") = S754_finite true 6755399441055744 (-52).
Proof. reflexivity. Qed.

Example StringToNumber_rounds :
  StringToNumber (js "9007199254740993") = Number_of_Z 9007199254740992.
Proof. reflexivity. Qed.

Example ToNumber_array :
  ToNumber (VArr [VArr [VStr (js "12")]]) = inr (Number_of_Z 12).
Proof. reflexivity. Qed.

Example ToNumber_pair : ToNumber (VArr [VNull; VNull]) = inr NaN.
Proof. reflexivity. Qed.

Example ToNumber_hidden_toString :
  ToNumber (VObj [(js "toString", VNull)])
    = inl (TypeError CannotConvertToPrimitive).
Proof. reflexivity. Qed.

Example parse_nested :
  JSON.parse (Example.json " {'a': [1, -0, 2.5e1, true, null, 'x\u0041\n'], 'b': {}} ")
    = inr (VObj [(js "a",
                  VArr [VNum (Number_of_Z 1); VNum (S754_zero true);
                        VNum (Number_of_Z 25); VBool true; VNull;
                        VStr [120; 65; 10]%N]);
                 (js "b", VObj [])]).
Proof. vm_compute. reflexivity. Qed.

Example parse_duplicate_key :
  JSON.parse (Example.json "{'a':1,'b':2,'a':3}")
    = inr (VObj [(js "a", VNum (Number_of_Z 3)); (js "b", VNum (Number_of_Z 2))]).
Proof. vm_compute. reflexivity. Qed.

Example parse_trailing_comma :
  JSON.parse (Example.json "[1,]") = inl SyntaxError.
Proof. reflexivity. Qed.

Example parse_leading_zero : JSON.parse (js "01") = inl SyntaxError.
Proof. reflexivity. Qed.

Example parse_single_quotes : JSON.parse (js "{'a':1}") = inl SyntaxError.
Proof. reflexivity. Qed.

Example parse_empty : JSON.parse [] = inl SyntaxError.
Proof. reflexivity. Qed.

(** The claim of the documentation, end to end. *)
Example claim_of_the_documentation :
  exists request,
    claim Example.env Example.Connection_new Example.request =
      (inr {| source_chain := VStr (js "ethereum");
              source_contract_address :=
                VStr (js "0xBC4CA0EdA7647A8aB7C2061c2E118A18a936f13D");
              source_token_id := VStr (js "8937");
              sui_explorer_link := EXPLORER_LINK |},
       [NewConnection (Some (js "http://127.0.0.1:5001"));
        BulkFetchObjects (Some (js "0x3e1d2ea5d62a4d0c5e1a4c0b8b9d607d5a1c7f11"));
        CallMoveFunction request;
        ConsoleInfo Example.created]) /\
    request =
      {| args := [VStr (js "0x9c3b");
                  VStr (js "0xa5e6dbcf33730ace6ec8b400ff4788c1f150ff7e");
                  VStr (js "0xBC4CA0EdA7647A8aB7C2061c2E118A18a936f13D");
                  VNum (Number_of_Z 8937);
                  VStr (js "BoredApeYachtClub"); VStr (js "ipfs://abc")];
         function := Some (js "claim");
         gasBudget := 2000;
         gasObjectId := js "0x1f0a";
         module := js "CrossChainAirdrop";
         packageObjectId := js "0x2";
         sender := Some (js "0x3e1d2ea5d62a4d0c5e1a4c0b8b9d607d5a1c7f11") |}.
Proof. eexists. split; vm_compute; reflexivity. Qed.

(** ** The monad *)

Lemma bind_lift_inr {A B} (a : A) (f : A -> M B) :
  bind (lift (inr a)) f = f a.
Proof. unfold bind, lift. destruct (f a). reflexivity. Qed.

Lemma bind_emit {B} (ev : Event) (k : M B) :
  bind (emit ev) (fun _ => k) = (fst k, ev :: snd k).
Proof. unfold bind, emit. destruct k. reflexivity. Qed.

(** ** Strings *)

Lemma jsstr_eqb_refl (s : JsString) : jsstr_eqb s s = true.
Proof. induction s; simpl; [|rewrite N.eqb_refl]; auto. Qed.

Lemma jsstr_eqb_eq (a b : JsString) : jsstr_eqb a b = true <-> a = b.
Proof.
  split.
  - revert b. induction a as [|x a IH]; destruct b as [|y b]; simpl;
      try discriminate; auto.
    intros H. apply andb_true_iff in H as [H1 H2].
    apply N.eqb_eq in H1. subst. f_equal. auto.
  - intros ->. apply jsstr_eqb_refl.
Qed.

(** ** The parser stage *)

Lemma getProp_VObj props k : getProp (VObj props) k = inr (member props k).
Proof. unfold getProp, member. destruct (lookup k props); reflexivity. Qed.

(** On an object the guard is truthy exactly when the five members are. *)
Lemma isAirdropClaimInfo_VObj props :
  exists g, isAirdropClaimInfo (VObj props) = inr g /\
            ToBoolean g = forallb (fun k => ToBoolean (member props k)) claimFields.
Proof.
  unfold isAirdropClaimInfo, claimFields. rewrite !getProp_VObj.
  cbn [tbind forallb]. unfold js_and.
  destruct (ToBoolean (member props (js "source_chain"))) eqn:E1;
    [|eexists; split; [reflexivity|]; rewrite E1; reflexivity].
  cbn [tbind].
  destruct (ToBoolean (member props (js "source_contract_address"))) eqn:E2;
    [|eexists; split; [reflexivity|]; rewrite E2; reflexivity].
  cbn [tbind].
  destruct (ToBoolean (member props (js "source_token_id"))) eqn:E3;
    [|eexists; split; [reflexivity|]; rewrite E3; reflexivity].
  cbn [tbind].
  destruct (ToBoolean (member props (js "source_owner_address"))) eqn:E4;
    [|eexists; split; [reflexivity|]; rewrite E4; reflexivity].
  cbn [andb]. eexists; split; [reflexivity|].
  rewrite andb_true_r. reflexivity.
Qed.

Lemma parseClaimInfo_VObj data props :
  getProp data (js "message") = inr (VObj props) ->
  parseClaimInfo data =
    if forallb (fun k => ToBoolean (member props k)) claimFields
    then inr (VObj props)
    else inl (wrongFormat (VObj props)).
Proof.
  intros H. unfold parseClaimInfo. rewrite H. cbn [tbind].
  destruct (isAirdropClaimInfo_VObj props) as (g & -> & Hg).
  cbn [tbind]. rewrite Hg. reflexivity.
Qed.

(** What a successful parse tells: the claim is the object under [message]
    and its five members are truthy. *)
Lemma parseClaimInfo_inr data ci :
  parseClaimInfo data = inr ci ->
  exists props,
    ci = VObj props /\ getProp data (js "message") = inr ci /\
    forallb (fun k => ToBoolean (member props k)) claimFields = true.
Proof.
  intros H.
  destruct (getProp data (js "message")) as [e | m] eqn:Hm.
  - unfold parseClaimInfo in H. rewrite Hm in H. discriminate.
  - destruct m as [| | b | n | s | l | props];
      try (unfold parseClaimInfo in H; rewrite Hm in H; discriminate).
    rewrite (parseClaimInfo_VObj _ _ Hm) in H.
    destruct (forallb _ claimFields) eqn:E; [|discriminate].
    injection H as <-. exists props. auto.
Qed.

(** ** The stages of a claim, one equation each *)

Section Stages.

Variable env : ProcessEnv.
Variable Connection_new : EnvVal -> Connection.

Lemma getGasAndOracle_eq (connection : Connection) (address : EnvVal) :
  getGasAndOracle env connection address =
    (match bulkFetchObjects connection address with
     | inl e => inl e
     | inr objects => resolve env objects
     end, [BulkFetchObjects address]).
Proof.
  unfold getGasAndOracle, resolve. rewrite bind_emit.
  destruct (bulkFetchObjects connection address) as [e | objects];
    [reflexivity|].
  rewrite bind_lift_inr.
  destruct (filter isGasCoin objects) as [|g gs]; [reflexivity|].
  rewrite bind_lift_inr.
  destruct (filter (isOracle env) objects) as [|o [|o' os]]; reflexivity.
Qed.

Lemma executeMoveCall_eq (connection : Connection) (props : list (JsString * JsValue)) :
  executeMoveCall env connection (VObj props) =
    let address := ORACLE_ADDRESS env in
    match outcome (getGasAndOracle env connection address) with
    | inl e => (inl e, [BulkFetchObjects address])
    | inr (gasObjectId, oracleObjectId) =>
        match ToNumber (member props (js "source_token_id")) with
        | inl e => (inl e, [BulkFetchObjects address])
        | inr tokenId =>
            let request :=
              moveCallRequest env address gasObjectId oracleObjectId
                (member props (js "destination_sui_address"))
                (member props (js "source_contract_address")) tokenId in
            let '(r, t) := submit connection request in
            (r, BulkFetchObjects address :: t)
        end
    end.
Proof.
  unfold executeMoveCall. cbv zeta. rewrite getGasAndOracle_eq.
  unfold outcome. cbn [fst].
  destruct (match bulkFetchObjects connection (ORACLE_ADDRESS env) with
            | inl e => inl e
            | inr objects => resolve env objects
            end) as [e | [gasObjectId oracleObjectId]]; [reflexivity|].
  unfold bind at 1. rewrite !getProp_VObj, !bind_lift_inr.
  destruct (ToNumber (member props (js "source_token_id"))) as [e | tokenId];
    [reflexivity|].
  rewrite bind_lift_inr, bind_emit. unfold submit.
  destruct (callMoveFunction connection _) as [e | result]; [reflexivity|].
  rewrite bind_lift_inr.
  destruct (created_objects (objectEffectsSummary result)) as [|o [|o' os]];
    reflexivity.
Qed.

Lemma claim_eq (claimMessage : AirdropClaimRequest) :
  claim env Connection_new claimMessage =
    match JSON.parse (wallet_message claimMessage) with
    | inl e => (inl e, [])
    | inr data =>
        match parseClaimInfo data with
        | inl e => (inl e, [])
        | inr claimInfo =>
            let endpoint := SUI_GATEWAY_ENDPOINT env in
            match executeMoveCall env (Connection_new endpoint) claimInfo with
            | (inl e, t) => (inl e, NewConnection endpoint :: t)
            | (inr _, t) =>
                (inr (response (ownProps claimInfo)), NewConnection endpoint :: t)
            end
        end
    end.
Proof.
  unfold claim.
  destruct (JSON.parse (wallet_message claimMessage)) as [e | data];
    [reflexivity|].
  rewrite bind_lift_inr.
  destruct (parseClaimInfo data) as [e | claimInfo] eqn:Hp; [reflexivity|].
  rewrite bind_lift_inr, bind_emit.
  destruct (parseClaimInfo_inr _ _ Hp) as (props & -> & _ & _).
  cbv zeta.
  destruct (executeMoveCall env _ (VObj props)) as [[e | id] t]; [reflexivity|].
  unfold bind at 1. rewrite !getProp_VObj, !bind_lift_inr.
  cbn. rewrite app_nil_r. reflexivity.
Qed.

End Stages.

(** ** Decimal token ids

    The unary plus on a string of decimal digits yields the Number nearest
    to the integer the digits denote. *)

Section DecimalStrings.

Local Open Scope N_scope.











End DecimalStrings.

(** ** What a claim submits, and when it succeeds *)

Section Claims.

Variable env : ProcessEnv.
Variable Connection_new : EnvVal -> Connection.

Let endpoint := SUI_GATEWAY_ENDPOINT env.
Let connection := Connection_new (SUI_GATEWAY_ENDPOINT env).
Let address := ORACLE_ADDRESS env.


Lemma submit_trace conn request :
  exists tail,
    trace (submit conn request) = CallMoveFunction request :: tail /\
    Forall (fun e => isChainIO e = false) tail.
Proof.
  unfold submit, trace.
  destruct (callMoveFunction conn request) as [e | result].
  - exists []. auto.
  - destruct (created_objects (objectEffectsSummary result)) as [|o [|o' os]];
      cbn [snd]; eexists; split; try reflexivity; repeat constructor.
Qed.

(** A claim whose parsing, resolution and conversion succeed: one
    submission, after the connection and the query. *)
Lemma claim_submits claimMessage data props gas oracle n :
  JSON.parse (wallet_message claimMessage) = inr data ->
  parseClaimInfo data = inr (VObj props) ->
  outcome (getGasAndOracle env connection address) = inr (gas, oracle) ->
  ToNumber (member props (js "source_token_id")) = inr n ->
  let request :=
    moveCallRequest env address gas oracle
      (member props (js "destination_sui_address"))
      (member props (js "source_contract_address")) n in
  claim env Connection_new claimMessage =
    (match outcome (submit connection request) with
     | inl e => inl e
     | inr _ => inr (response props)
     end,
     NewConnection endpoint :: BulkFetchObjects address
       :: trace (submit connection request)).
Proof.
  intros Hd Hp Hr Hn request. rewrite claim_eq, Hd, Hp. cbv zeta.
  rewrite executeMoveCall_eq. cbv zeta. fold connection address.
  rewrite Hr, Hn. fold request. unfold outcome, trace.
  destruct (submit connection request) as [[e | id] t]; reflexivity.
Qed.

(** Every submission of a claim is the request built from the parsed
    claim, the resolved pair and the converted token id. *)
Lemma claim_request claimMessage request :
  In (CallMoveFunction request) (trace (claim env Connection_new claimMessage)) ->
  exists data props gas oracle n,
    JSON.parse (wallet_message claimMessage) = inr data /\
    parseClaimInfo data = inr (VObj props) /\
    outcome (getGasAndOracle env connection address) = inr (gas, oracle) /\
    ToNumber (member props (js "source_token_id")) = inr n /\
    request =
      moveCallRequest env address gas oracle
        (member props (js "destination_sui_address"))
        (member props (js "source_contract_address")) n.
Proof.
  rewrite claim_eq.
  destruct (JSON.parse (wallet_message claimMessage)) as [e | data] eqn:Hd;
    [intros []|].
  destruct (parseClaimInfo data) as [e | claimInfo] eqn:Hp; [intros []|].
  destruct (parseClaimInfo_inr _ _ Hp) as (props & -> & _ & _).
  cbv zeta. rewrite executeMoveCall_eq. cbv zeta. fold connection address.
  destruct (outcome (getGasAndOracle env connection address))
    as [e | [gas oracle]] eqn:Hr.
  { cbn. intros [H | [H | []]]; discriminate. }
  destruct (ToNumber (member props (js "source_token_id"))) as [e | n] eqn:Hn.
  { cbn. intros [H | [H | []]]; discriminate. }
  set (rq := moveCallRequest _ _ _ _ _ _ _).
  destruct (submit_trace connection rq) as (tail & Ht & Htail).
  unfold trace in *. intros Hin.
  assert (Hin' : In (CallMoveFunction request)
                   (NewConnection endpoint :: BulkFetchObjects address
                      :: CallMoveFunction rq :: tail)).
  { destruct (submit connection rq) as [[e | id] t]; cbn [snd] in *;
      subst t; exact Hin. }
  destruct Hin' as [H | [H | [H | H]]]; try discriminate.
  - injection H as <-. exists data, props, gas, oracle, n. auto.
  - rewrite Forall_forall in Htail. apply Htail in H. discriminate.
Qed.

(** A claim that answers went through every stage. *)
Lemma claim_success claimMessage resp :
  outcome (claim env Connection_new claimMessage) = inr resp ->
  exists data props gas oracle n result o,
    JSON.parse (wallet_message claimMessage) = inr data /\
    parseClaimInfo data = inr (VObj props) /\
    outcome (getGasAndOracle env connection address) = inr (gas, oracle) /\
    ToNumber (member props (js "source_token_id")) = inr n /\
    callMoveFunction connection
      (moveCallRequest env address gas oracle
         (member props (js "destination_sui_address"))
         (member props (js "source_contract_address")) n) = inr result /\
    created_objects (objectEffectsSummary result) = [o] /\
    resp = response props.
Proof.
  rewrite claim_eq. unfold outcome at 1.
  destruct (JSON.parse (wallet_message claimMessage)) as [e | data] eqn:Hd;
    [discriminate|].
  destruct (parseClaimInfo data) as [e | claimInfo] eqn:Hp; [discriminate|].
  destruct (parseClaimInfo_inr _ _ Hp) as (props & -> & _ & _).
  cbv zeta. rewrite executeMoveCall_eq. cbv zeta. fold connection address.
  destruct (outcome (getGasAndOracle env connection address))
    as [e | [gas oracle]] eqn:Hr; [discriminate|].
  destruct (ToNumber (member props (js "source_token_id"))) as [e | n] eqn:Hn;
    [discriminate|].
  unfold submit.
  destruct (callMoveFunction connection _) as [e | result] eqn:Hc;
    [discriminate|].
  destruct (created_objects (objectEffectsSummary result)) as [|o [|o' os]] eqn:Hcr;
    try discriminate.
  cbn. intros [= <-].
  exists data, props, gas, oracle, n, result, o. auto 10.
Qed.

End Claims.

(** * The claims *)



(** A claim under [message] that is neither [undefined] nor [null] and has
    a falsy member among the five is refused with the [ValidateError]. *)
Lemma parseClaimInfo_reject data m :
  getProp data (js "message") = inr m ->
  m <> VUndef -> m <> VNull ->
  (exists k, In k claimFields /\ ToBoolean (member (ownProps m) k) = false) ->
  parseClaimInfo data = inl (wrongFormat m).
Proof.
  intros Hm Hu Hn (k & Hk & Hfalse).
  destruct m as [| | b | n | s | l | props]; try congruence;
    try (unfold parseClaimInfo; rewrite Hm; reflexivity).
  rewrite (parseClaimInfo_VObj _ _ Hm).
  destruct (forallb _ claimFields) eqn:E; [|reflexivity].
  rewrite forallb_forall in E. specialize (E k Hk). cbn [ownProps] in Hfalse.
  congruence.
Qed.

(** C2 (as amended). When the message string deserializes and the value
    under [message] is neither [undefined] nor [null] and lacks one of the
    five claim members or has it falsy (the empty string among others), the
    claim signals the [ValidateError] that carries that raw value. And
    whenever deserialization or validation fails, for whatever reason, the
    claim fails with no effect at all: no connection, no query, no
    submission. *)
Theorem C2_validation_before_io
  (env : ProcessEnv) (Connection_new : EnvVal -> Connection)
  (claimMessage : AirdropClaimRequest) :
  (forall data message,
      JSON.parse (wallet_message claimMessage) = inr data ->
      getProp data (js "message") = inr message ->
      message <> VUndef -> message <> VNull ->
      (exists k, In k claimFields /\
                 ToBoolean (member (ownProps message) k) = false) ->
      claim env Connection_new claimMessage =
        (inl (ValidateError message (js "Wrong format")
                (js "Wrong format for wallet message")), [])) /\
  ((exists e, JSON.parse (wallet_message claimMessage) = inl e) \/
   (exists data e, JSON.parse (wallet_message claimMessage) = inr data /\
                   parseClaimInfo data = inl e) ->
   exists e, claim env Connection_new claimMessage = (inl e, [])).
Proof.
  split.
  - intros data message Hd Hm Hu Hn Hk.
    rewrite claim_eq, Hd, (parseClaimInfo_reject _ _ Hm Hu Hn Hk).
    reflexivity.
  - intros [(e & He) | (data & e & Hd & He)]; exists e; rewrite claim_eq.
    + rewrite He. reflexivity.
    + rewrite Hd, He. reflexivity.
Qed.

(** A claim without [destination_sui_address] is refused with the
    [ValidateError] and nothing reaches the chain; so is nothing when the
    text is no JSON. *)
Lemma C2_validation_before_io_witness :
  (exists value,
      claim Example.env Example.Connection_new Example.incomplete =
        (inl (ValidateError value (js "Wrong format")
                (js "Wrong format for wallet message")), [])) /\
  (exists e,
      claim Example.env Example.Connection_new Example.malformed = (inl e, [])).
Proof.
  split.
  - destruct (JSON.parse (wallet_message Example.incomplete)) as [e | data] eqn:Hd;
      [vm_compute in Hd; discriminate|].
    destruct (getProp data (js "message")) as [e | message] eqn:Hm;
      [vm_compute in Hd; injection Hd as <-; vm_compute in Hm; discriminate|].
    exists message.
    apply (proj1 (C2_validation_before_io Example.env Example.Connection_new
                    Example.incomplete) data message Hd Hm);
      vm_compute in Hd; injection Hd as <-; vm_compute in Hm;
      injection Hm as <-; try discriminate.
    exists (js "destination_sui_address"). split; [|reflexivity].
    right. right. right. right. left. reflexivity.
  - apply (proj2 (C2_validation_before_io Example.env Example.Connection_new
                    Example.malformed)).
    left. exists SyntaxError. vm_compute. reflexivity.
Defined.

(** C2 as stated fails. On text that is no JSON the claim signals the
    [SyntaxError] of [JSON.parse], which is no [ValidateError] and carries
    no value. On a payload with no [message] member, so with none of the
    five members, the type guard reads a member of [undefined] and the
    claim signals that [TypeError]. *)
Lemma C2_malformed_counterexample :
  JSON.parse (wallet_message Example.malformed) = inl SyntaxError /\
  claim Example.env Example.Connection_new Example.malformed
    = (inl SyntaxError, []) /\
  ~ (exists value field_message message,
        outcome (claim Example.env Example.Connection_new Example.malformed)
          = inl (ValidateError value field_message message)) /\
  JSON.parse (wallet_message Example.empty_payload) = inr (VObj []) /\
  claim Example.env Example.Connection_new Example.empty_payload
    = (inl (TypeError (ReadPropertyOfNullish VUndef (js "source_chain"))), []).
Proof.
  repeat split; try (vm_compute; reflexivity).
  intros (value & fm & m & H). vm_compute in H. discriminate.
Qed.

(** ** The object resolver *)

Lemma filter_none {A} (p : A -> bool) (l : list A) :
  (forall x, In x l -> p x = false) -> filter p l = [].
Proof.
  induction l as [|x l IH]; [reflexivity|]. intros H. cbn [filter].
  rewrite (H x (or_introl eq_refl)). apply IH. intros y Hy. apply H. now right.
Qed.

Lemma filter_cons_of_In {A} (p : A -> bool) (l : list A) (x : A) :
  In x l -> p x = true -> exists y rest, filter p l = y :: rest.
Proof.
  intros Hin Hp. destruct (filter p l) as [|y rest] eqn:E; [|eauto].
  assert (H : In x (filter p l)) by (apply filter_In; auto).
  rewrite E in H. destruct H.
Qed.

Lemma oracle_object_identifier_eq env :
  oracle_object_identifier env =
    orDefault (ORACLE_CONTRACT_PACKAGE env) (js "0x2") ++ js "::"
    ++ orDefault (ORACLE_CONTRACT_MODULE env) (js "CrossChainAirdrop")
    ++ js "::" ++ envToString (ORACLE_CONTRACT_ADMIN_IDENTIFIER env).
Proof.
  unfold oracle_object_identifier, getPackageAndModule. cbn [fst snd join].
  rewrite <- !app_assoc. reflexivity.
Qed.

(** C3 (as amended). For every list of objects owned by the oracle account
    in which the number of objects whose type equals the oracle-authority
    type string [package::module::adminIdentifier] is not one, the resolver
    returns no pair; and when the list holds a gas coin, what it signals is
    the error "Unexpected number of oracle object". *)
Theorem C3_oracle_singleton
  (env : ProcessEnv) (connection : Connection) (address : EnvVal)
  (objects : list SuiObject.t) :
  bulkFetchObjects connection address = inr objects ->
  List.length
    (filter (fun o => jsstr_eqb (SuiObject.objType o)
                        (oracle_object_identifier env)) objects) <> 1%nat ->
  (forall pair, outcome (getGasAndOracle env connection address) <> inr pair) /\
  ((exists g, In g objects /\
              SuiObject.objType g = js "0x2::Coin::Coin<0x2::GAS::GAS>") ->
   outcome (getGasAndOracle env connection address) =
     inl (Error (js "Unexpected number of oracle object: "
                 ++ arrayToString
                      (filter (fun o => jsstr_eqb (SuiObject.objType o)
                                          (oracle_object_identifier env))
                         objects)))) /\
  oracle_object_identifier env =
    orDefault (ORACLE_CONTRACT_PACKAGE env) (js "0x2") ++ js "::"
    ++ orDefault (ORACLE_CONTRACT_MODULE env) (js "CrossChainAirdrop")
    ++ js "::" ++ envToString (ORACLE_CONTRACT_ADMIN_IDENTIFIER env).
Proof.
  intros Hf Hcount. rewrite getGasAndOracle_eq, Hf. unfold outcome. cbn [fst].
  unfold resolve. change (filter (isOracle env) objects) with
    (filter (fun o => jsstr_eqb (SuiObject.objType o)
                        (oracle_object_identifier env)) objects).
  set (oracle := filter _ objects) in *.
  repeat split.
  - intros pair. destruct (filter isGasCoin objects) as [|g gs];
      [discriminate|].
    destruct oracle as [|o [|o' os]]; try discriminate.
    cbn in Hcount. congruence.
  - intros (g & Hin & Hty).
    destruct (filter_cons_of_In isGasCoin objects g Hin) as (y & rest & ->).
    { unfold isGasCoin. rewrite Hty. apply jsstr_eqb_refl. }
    destruct oracle as [|o [|o' os]]; try reflexivity.
    cbn in Hcount. congruence.
  - apply oracle_object_identifier_eq.
Qed.

(** An account with a gas coin and no oracle object. *)
Lemma C3_oracle_singleton_witness :
  outcome (getGasAndOracle Example.env
             (Example.gateway [Example.gasObject] Example.created None) None)
    = inl (Error (js "Unexpected number of oracle object: ")).
Proof.
  apply (C3_oracle_singleton Example.env
           (Example.gateway [Example.gasObject] Example.created None) None
           [Example.gasObject]).
  - reflexivity.
  - vm_compute. discriminate.
  - exists Example.gasObject. split; [left|]; reflexivity.
Defined.

(** C3 as stated fails: with two oracle objects (or none) and no gas coin,
    the resolver fails on the gas coin first, with the [TypeError] of
    reading [id] from [undefined], not with the oracle-count error. *)
Lemma C3_no_gas_counterexample :
  List.length (filter (isOracle Example.env) Example.two_oracles) = 2%nat /\
  outcome (getGasAndOracle Example.env
             (Example.gateway Example.two_oracles Example.created None) None)
    = inl (TypeError (ReadPropertyOfNullish VUndef (js "id"))) /\
  List.length (filter (isOracle Example.env) []) = 0%nat /\
  outcome (getGasAndOracle Example.env
             (Example.gateway [] Example.created None) None)
    = inl (TypeError (ReadPropertyOfNullish VUndef (js "id"))) /\
  ~ (exists message,
        outcome (getGasAndOracle Example.env
                   (Example.gateway Example.two_oracles Example.created None)
                   None)
          = inl (Error message)).
Proof.
  repeat split; try (vm_compute; reflexivity).
  intros (message & H). vm_compute in H. discriminate.
Qed.

(** C7 (a defect of the code). The claim asks for a not-found error when
    the account owns no gas coin. The resolver has no check for it: where
    the oracle objects and the created objects are counted before the first
    one is read, [objects.filter(..)[0].id] is read unguarded. For every
    list of owned objects that holds no object of the gas-coin type, what
    the resolver fails with, after the one query and before the oracle
    objects are counted, is the [TypeError] of reading [id] from
    [undefined]. *)
Theorem C7_no_gas_coin
  (env : ProcessEnv) (connection : Connection) (address : EnvVal)
  (objects : list SuiObject.t) :
  bulkFetchObjects connection address = inr objects ->
  (forall o, In o objects ->
             SuiObject.objType o <> js "0x2::Coin::Coin<0x2::GAS::GAS>") ->
  getGasAndOracle env connection address =
    (inl (TypeError (ReadPropertyOfNullish VUndef (js "id"))),
     [BulkFetchObjects address]).
Proof.
  intros Hf Hnone. rewrite getGasAndOracle_eq, Hf. unfold resolve.
  rewrite filter_none; [reflexivity|].
  intros o Ho. unfold isGasCoin.
  destruct (jsstr_eqb _ GAS_COIN_TYPE) eqn:E; [|reflexivity].
  apply jsstr_eqb_eq in E. destruct (Hnone o Ho E).
Qed.

(** An account that owns the oracle object and another object, no gas. *)
Lemma C7_no_gas_coin_witness :
  getGasAndOracle Example.env
    (Example.gateway [Example.otherObject; Example.oracleObject]
       Example.created None)
    (ORACLE_ADDRESS Example.env) =
    (inl (TypeError (ReadPropertyOfNullish VUndef (js "id"))),
     [BulkFetchObjects (ORACLE_ADDRESS Example.env)]).
Proof.
  apply (C7_no_gas_coin Example.env _ _
           [Example.otherObject; Example.oracleObject]).
  - reflexivity.
  - intros o [<- | [<- | []]]; vm_compute; discriminate.
Defined.

(** C9. For every id string the normalization returns "0x" followed by the
    input, whatever the input: an id that already carries the prefix comes
    back as "0x0x...", so the normalization is not idempotent; and the
    resolver applies it to the raw ids of the objects it selected, with no
    check of their form. *)
Theorem C9_formatObjectId_prepends
  (env : ProcessEnv) (connection : Connection) (address : EnvVal)
  (id : JsString) :
  formatObjectId id = js "0x" ++ id /\
  formatObjectId (js "0x" ++ id) = js "0x0x" ++ id /\
  formatObjectId (formatObjectId id) <> formatObjectId id /\
  (forall gasObjectId oracleObjectId,
      outcome (getGasAndOracle env connection address)
        = inr (gasObjectId, oracleObjectId) ->
      exists objects g o,
        bulkFetchObjects connection address = inr objects /\
        In g objects /\ SuiObject.objType g = GAS_COIN_TYPE /\
        In o objects /\ SuiObject.objType o = oracle_object_identifier env /\
        gasObjectId = js "0x" ++ SuiObject.id g /\
        oracleObjectId = js "0x" ++ SuiObject.id o).
Proof.
  repeat split.
  - intros H. apply (f_equal (@List.length _)) in H.
    unfold formatObjectId in H. rewrite !length_app in H. cbn in H. lia.
  - intros gas oracle. rewrite getGasAndOracle_eq. unfold outcome. cbn [fst].
    destruct (bulkFetchObjects connection address) as [e | objects];
      [discriminate|].
    unfold resolve.
    destruct (filter isGasCoin objects) as [|g gs] eqn:Eg; [discriminate|].
    destruct (filter (isOracle env) objects) as [|o [|o' os]] eqn:Eo;
      try discriminate.
    intros [= <- <-].
    assert (Hg : In g (filter isGasCoin objects)) by (rewrite Eg; now left).
    assert (Ho : In o (filter (isOracle env) objects)) by (rewrite Eo; now left).
    apply filter_In in Hg as [Hg1 Hg2]. apply filter_In in Ho as [Ho1 Ho2].
    apply jsstr_eqb_eq in Hg2, Ho2.
    exists objects, g, o. auto 10.
Qed.

(** An account whose ids are "0x1f0a" and "0x9c3b" resolves to "0x0x1f0a"
    and "0x0x9c3b". *)
Lemma C9_formatObjectId_prepends_witness :
  outcome (getGasAndOracle Example.env
             (Example.gateway Example.prefixed Example.created None) None)
    = inr (js "0x0x1f0a", js "0x0x9c3b") /\
  exists objects g o,
    In g objects /\ In o objects /\
    js "0x0x1f0a" = js "0x" ++ SuiObject.id g /\
    js "0x0x9c3b" = js "0x" ++ SuiObject.id o.
Proof.
  split; [vm_compute; reflexivity|].
  destruct (proj2 (proj2 (proj2
              (C9_formatObjectId_prepends Example.env
                 (Example.gateway Example.prefixed Example.created None)
                 None (js "0x1f0a"))))
              (js "0x0x1f0a") (js "0x0x9c3b"))
    as (objects & g & o & _ & Hg & _ & Ho & _ & Egas & Eoracle);
    [vm_compute; reflexivity|].
  exists objects, g, o. auto.
Defined.

(** ** The orchestrator *)

(** C5. For every submission result whose list of created objects has a
    length other than one, the claim fails with the error "Unexpected
    number of objects created" and gives no response; a response is given
    only when the submission created exactly one object. *)
Theorem C5_created_singleton
  (env : ProcessEnv) (Connection_new : EnvVal -> Connection)
  (claimMessage : AirdropClaimRequest) :
  (forall request result,
      In (CallMoveFunction request)
        (trace (claim env Connection_new claimMessage)) ->
      callMoveFunction (Connection_new (SUI_GATEWAY_ENDPOINT env)) request
        = inr result ->
      List.length (created_objects (objectEffectsSummary result)) <> 1%nat ->
      outcome (claim env Connection_new claimMessage) =
        inl (Error (js "Unexpected number of objects created: "
                    ++ arrayToString
                         (created_objects (objectEffectsSummary result))))) /\
  (forall resp,
      outcome (claim env Connection_new claimMessage) = inr resp ->
      exists request result,
        In (CallMoveFunction request)
          (trace (claim env Connection_new claimMessage)) /\
        callMoveFunction (Connection_new (SUI_GATEWAY_ENDPOINT env)) request
          = inr result /\
        List.length (created_objects (objectEffectsSummary result)) = 1%nat).
Proof.
  split.
  - intros request result Hin Hcall Hlen.
    destruct (claim_request _ _ _ _ Hin)
      as (data & props & gas & oracle & n & Hd & Hp & Hr & Hn & ->).
    pose proof (claim_submits env Connection_new _ _ _ _ _ _ Hd Hp Hr Hn) as H.
    cbv zeta in H. rewrite H. unfold outcome, submit. cbn [fst].
    rewrite Hcall.
    destruct (created_objects (objectEffectsSummary result)) as [|o [|o' os]];
      try reflexivity.
    cbn in Hlen. congruence.
  - intros resp Hresp.
    destruct (claim_success _ _ _ _ Hresp)
      as (data & props & gas & oracle & n & result & o &
          Hd & Hp & Hr & Hn & Hcall & Hcr & _).
    pose proof (claim_submits env Connection_new _ _ _ _ _ _ Hd Hp Hr Hn) as H.
    cbv zeta in H. eexists. exists result. rewrite H. split; [|split].
    + unfold trace at 1. cbn [snd].
      destruct (submit_trace (Connection_new (SUI_GATEWAY_ENDPOINT env))
                  (moveCallRequest env (ORACLE_ADDRESS env) gas oracle
                     (member props (js "destination_sui_address"))
                     (member props (js "source_contract_address")) n))
        as (tail & -> & _).
      right. right. left. reflexivity.
    + exact Hcall.
    + rewrite Hcr. reflexivity.
Qed.

(** A submission that creates no object, and one that creates two: the
    claim fails with the count error. One created object: the response. *)
Lemma C5_created_singleton_witness :
  outcome (claim Example.env (Example.gateway Example.objects [])
             Example.request)
    = inl (Error (js "Unexpected number of objects created: ")) /\
  outcome (claim Example.env
             (Example.gateway Example.objects Example.created_twice)
             Example.request)
    = inl (Error (js "Unexpected number of objects created: [object Object],[object Object]")) /\
  exists resp request result,
    outcome (claim Example.env Example.Connection_new Example.request)
      = inr resp /\
    callMoveFunction (Example.Connection_new None) request = inr result /\
    List.length (created_objects (objectEffectsSummary result)) = 1%nat.
Proof.
  split; [|split].
  - assert (Hin : exists request,
               In (CallMoveFunction request)
                 (trace (claim Example.env (Example.gateway Example.objects [])
                           Example.request))).
    { vm_compute. eexists. right. right. left. reflexivity. }
    destruct Hin as (request & Hin).
    apply (proj1 (C5_created_singleton Example.env
                    (Example.gateway Example.objects []) Example.request)
             request (mkResult (mkSummary [])) Hin).
    + reflexivity.
    + cbn. discriminate.
  - assert (Hin : exists request,
               In (CallMoveFunction request)
                 (trace (claim Example.env
                           (Example.gateway Example.objects Example.created_twice)
                           Example.request))).
    { vm_compute. eexists. right. right. left. reflexivity. }
    destruct Hin as (request & Hin).
    apply (proj1 (C5_created_singleton Example.env
                    (Example.gateway Example.objects Example.created_twice)
                    Example.request)
             request (mkResult (mkSummary Example.created_twice)) Hin).
    + reflexivity.
    + cbn. discriminate.
  - destruct (outcome (claim Example.env Example.Connection_new Example.request))
      as [e | resp] eqn:E; [vm_compute in E; discriminate|].
    destruct (proj2 (C5_created_singleton Example.env Example.Connection_new
                       Example.request) resp E)
      as (request & result & _ & Hcall & Hlen).
    exists resp, request, result. auto.
Defined.

(** C6. For every claim that completes, the members [source_chain],
    [source_contract_address] and [source_token_id] of the response are the
    members of those names of the parsed claim, as they are. *)
Theorem C6_response_echo
  (env : ProcessEnv) (Connection_new : EnvVal -> Connection)
  (claimMessage : AirdropClaimRequest) (resp : AirdropClaimResponse) :
  outcome (claim env Connection_new claimMessage) = inr resp ->
  exists data claimInfo,
    JSON.parse (wallet_message claimMessage) = inr data /\
    parseClaimInfo data = inr claimInfo /\
    getProp claimInfo (js "source_chain") = inr (source_chain resp) /\
    getProp claimInfo (js "source_contract_address")
      = inr (source_contract_address resp) /\
    getProp claimInfo (js "source_token_id") = inr (source_token_id resp).
Proof.
  intros Hresp.
  destruct (claim_success _ _ _ _ Hresp)
    as (data & props & gas & oracle & n & result & o &
        Hd & Hp & _ & _ & _ & _ & ->).
  exists data, (VObj props). rewrite !getProp_VObj. auto.
Qed.

(** The request of the documentation: the response echoes "ethereum", the
    contract address and "8937". *)
Lemma C6_response_echo_witness :
  exists resp,
    outcome (claim Example.env Example.Connection_new Example.request)
      = inr resp /\
    source_chain resp = VStr (js "ethereum") /\
    source_contract_address resp
      = VStr (js "0xBC4CA0EdA7647A8aB7C2061c2E118A18a936f13D") /\
    source_token_id resp = VStr (js "8937").
Proof.
  destruct (outcome (claim Example.env Example.Connection_new Example.request))
    as [e | resp] eqn:E; [vm_compute in E; discriminate|].
  exists resp. split; [reflexivity|].
  destruct (C6_response_echo Example.env Example.Connection_new
              Example.request resp E)
    as (data & claimInfo & Hd & Hp & H1 & H2 & H3).
  vm_compute in Hd. injection Hd as <-.
  vm_compute in Hp. injection Hp as <-.
  rewrite getProp_VObj in H1, H2, H3.
  injection H1 as <-. injection H2 as <-. injection H3 as <-.
  repeat split; vm_compute; reflexivity.
Defined.

(** C8. For every invocation a claim submits, the gas budget is 2000 and
    the sender is the oracle address of the environment: the same for every
    claim, whatever addresses the claim names. *)
Theorem C8_budget_and_sender
  (env : ProcessEnv) (Connection_new : EnvVal -> Connection)
  (claimMessage : AirdropClaimRequest) (request : MoveCallRequest) :
  In (CallMoveFunction request)
    (trace (claim env Connection_new claimMessage)) ->
  gasBudget request = 2000 /\
  sender request = ORACLE_ADDRESS env /\
  (forall claimMessage' request',
      In (CallMoveFunction request')
        (trace (claim env Connection_new claimMessage')) ->
      sender request' = sender request).
Proof.
  intros Hin.
  destruct (claim_request _ _ _ _ Hin)
    as (data & props & gas & oracle & n & _ & _ & _ & _ & ->).
  repeat split.
  intros claimMessage' request' Hin'.
  destruct (claim_request _ _ _ _ Hin')
    as (data' & props' & gas' & oracle' & n' & _ & _ & _ & _ & ->).
  reflexivity.
Qed.

(** The request of the documentation: budget 2000, sent by the oracle
    account of the deployment. *)
Lemma C8_budget_and_sender_witness :
  exists request,
    In (CallMoveFunction request)
      (trace (claim Example.env Example.Connection_new Example.request)) /\
    gasBudget request = 2000 /\
    sender request = Some (js "0x3e1d2ea5d62a4d0c5e1a4c0b8b9d607d5a1c7f11").
Proof.
  assert (Hin : exists request,
             In (CallMoveFunction request)
               (trace (claim Example.env Example.Connection_new
                         Example.request))).
  { vm_compute. eexists. right. right. left. reflexivity. }
  destruct Hin as (request & Hin). exists request.
  destruct (C8_budget_and_sender Example.env Example.Connection_new
              Example.request request Hin) as (Hb & Hs & _).
  auto.
Defined.

(** C10. For every claim that completes, the link of the response is one
    fixed string: two claims, under whatever environments and gateways and
    whatever objects they create, get the same link. *)
Theorem C10_fixed_link
  (env env' : ProcessEnv) (Connection_new Connection_new' : EnvVal -> Connection)
  (claimMessage claimMessage' : AirdropClaimRequest)
  (resp resp' : AirdropClaimResponse) :
  outcome (claim env Connection_new claimMessage) = inr resp ->
  outcome (claim env' Connection_new' claimMessage') = inr resp' ->
  sui_explorer_link resp =
    js "https://djgd7fpxio1yh.cloudfront.net/objects/7bc832ec31709638cd8d9323e90edf332gff4389" /\
  sui_explorer_link resp' = sui_explorer_link resp.
Proof.
  intros H H'.
  destruct (claim_success _ _ _ _ H)
    as (data & props & gas & oracle & n & result & o &
        _ & _ & _ & _ & _ & _ & ->).
  destruct (claim_success _ _ _ _ H')
    as (data' & props' & gas' & oracle' & n' & result' & o' &
        _ & _ & _ & _ & _ & _ & ->).
  split; reflexivity.
Qed.

(** Two claims whose mints create different objects get the same link. *)
Lemma C10_fixed_link_witness :
  exists resp resp',
    outcome (claim Example.env (Example.gateway Example.objects Example.created)
               Example.request) = inr resp /\
    outcome (claim Example.env (Example.gateway Example.objects Example.created')
               Example.blank) = inr resp' /\
    Example.created <> Example.created' /\
    sui_explorer_link resp' = sui_explorer_link resp.
Proof.
  destruct (outcome (claim Example.env
                       (Example.gateway Example.objects Example.created)
                       Example.request))
    as [e | resp] eqn:E; [vm_compute in E; discriminate|].
  destruct (outcome (claim Example.env
                       (Example.gateway Example.objects Example.created')
                       Example.blank))
    as [e | resp'] eqn:E'; [vm_compute in E'; discriminate|].
  exists resp, resp'. repeat split; try discriminate.
  apply (C10_fixed_link _ _ _ _ _ _ _ _ E E').
Defined.

(** C4 (as amended). For every well-formed envelope whose claim has its
    five members truthy, the parser accepts the claim without looking at
    the form of [source_token_id]; once the objects are resolved, the token
    id is converted by the unary plus and the invocation is submitted with
    the resulting number as its fourth argument, whatever number that is. *)
Theorem C4_token_id_unchecked
  (env : ProcessEnv) (Connection_new : EnvVal -> Connection)
  (claimMessage : AirdropClaimRequest) (data : JsValue)
  (props : list (JsString * JsValue)) :
  JSON.parse (wallet_message claimMessage) = inr data ->
  getProp data (js "message") = inr (VObj props) ->
  forallb (fun k => ToBoolean (member props k)) claimFields = true ->
  parseClaimInfo data = inr (VObj props) /\
  (forall gasObjectId oracleObjectId n,
      outcome (getGasAndOracle env (Connection_new (SUI_GATEWAY_ENDPOINT env))
                 (ORACLE_ADDRESS env)) = inr (gasObjectId, oracleObjectId) ->
      ToNumber (member props (js "source_token_id")) = inr n ->
      exists request,
        In (CallMoveFunction request)
          (trace (claim env Connection_new claimMessage)) /\
        nth_error (args request) 3 = Some (VNum n)).
Proof.
  intros Hd Hm Hall.
  assert (Hp : parseClaimInfo data = inr (VObj props)).
  { rewrite (parseClaimInfo_VObj _ _ Hm), Hall. reflexivity. }
  split; [exact Hp|].
  intros gas oracle n Hr Hn.
  pose proof (claim_submits env Connection_new _ _ _ _ _ _ Hd Hp Hr Hn) as H.
  cbv zeta in H. rewrite H. unfold trace at 1. cbn [snd].
  destruct (submit_trace (Connection_new (SUI_GATEWAY_ENDPOINT env))
              (moveCallRequest env (ORACLE_ADDRESS env) gas oracle
                 (member props (js "destination_sui_address"))
                 (member props (js "source_contract_address")) n))
    as (tail & -> & _).
  eexists. split; [right; right; left; reflexivity|]. reflexivity.
Qed.

(** The token id "abc" is accepted and submitted as NaN. *)
Lemma C4_token_id_unchecked_witness :
  exists request,
    In (CallMoveFunction request)
      (trace (claim Example.env Example.Connection_new Example.non_numeric)) /\
    nth_error (args request) 3 = Some (VNum NaN).
Proof.
  destruct (JSON.parse (wallet_message Example.non_numeric)) as [e | data] eqn:Hd;
    [vm_compute in Hd; discriminate|].
  destruct (getProp data (js "message")) as [e | message] eqn:Hm;
    [vm_compute in Hd; injection Hd as <-; vm_compute in Hm; discriminate|].
  destruct message as [| | b | n | s | l | props];
    try (vm_compute in Hd; injection Hd as <-; vm_compute in Hm; discriminate).
  assert (Hall : forallb (fun k => ToBoolean (member props k)) claimFields = true).
  { vm_compute in Hd. injection Hd as <-. vm_compute in Hm.
    injection Hm as <-. vm_compute. reflexivity. }
  assert (Hn : ToNumber (member props (js "source_token_id")) = inr NaN).
  { vm_compute in Hd. injection Hd as <-. vm_compute in Hm.
    injection Hm as <-. vm_compute. reflexivity. }
  apply (proj2 (C4_token_id_unchecked Example.env Example.Connection_new
                  Example.non_numeric data props Hd Hm Hall)
           (js "0x1f0a") (js "0x9c3b") NaN);
    [vm_compute; reflexivity | exact Hn].
Defined.

(** C4 as stated fails: the token id "abc" is not rejected. The claim goes
    through, the invocation is submitted with NaN as fourth argument; and
    the token id " ", no decimal integer either, is submitted as zero. *)
Lemma C4_non_numeric_counterexample :
  (exists request resp,
      claim Example.env Example.Connection_new Example.non_numeric =
        (inr resp,
         [NewConnection (SUI_GATEWAY_ENDPOINT Example.env);
          BulkFetchObjects (ORACLE_ADDRESS Example.env);
          CallMoveFunction request;
          ConsoleInfo Example.created]) /\
      source_token_id resp = VStr (js "abc") /\
      nth_error (args request) 3 = Some (VNum NaN)) /\
  (exists request resp,
      claim Example.env Example.Connection_new Example.blank =
        (inr resp,
         [NewConnection (SUI_GATEWAY_ENDPOINT Example.env);
          BulkFetchObjects (ORACLE_ADDRESS Example.env);
          CallMoveFunction request;
          ConsoleInfo Example.created]) /\
      source_token_id resp = VStr (js " ") /\
      nth_error (args request) 3 = Some (VNum (Number_of_Z 0))).
Proof.
  split; vm_compute; eexists; eexists; repeat split.
Qed.

(** * Further properties of the service *)

(** ** The parser *)

(** X1. [parseClaimInfo] accepts a payload exactly when the value under
    [message] is an object whose five claim members are truthy, and what it
    returns is that very object, further members included. *)
Theorem X1_parseClaimInfo_accepts_iff (data claimInfo : JsValue) :
  parseClaimInfo data = inr claimInfo <->
  exists props,
    getProp data (js "message") = inr (VObj props) /\
    claimInfo = VObj props /\
    forall k, In k claimFields -> ToBoolean (member props k) = true.
Proof.
  split.
  - intros H. destruct (parseClaimInfo_inr _ _ H) as (props & -> & Hm & Hall).
    exists props. rewrite forallb_forall in Hall. auto.
  - intros (props & Hm & -> & Hall).
    rewrite (parseClaimInfo_VObj _ _ Hm).
    rewrite (proj2 (forallb_forall _ _) Hall). reflexivity.
Qed.

(** The payload of the documentation is accepted, as the object under
    [message]. *)
Lemma X1_parseClaimInfo_accepts_iff_witness :
  exists props,
    getProp Example.data (js "message") = inr (VObj props) /\
    Example.claimInfo = VObj props /\
    forall k, In k claimFields -> ToBoolean (member props k) = true.
Proof.
  apply (proj1 (X1_parseClaimInfo_accepts_iff Example.data Example.claimInfo)).
  vm_compute. reflexivity.
Defined.

(** X2. A payload that is [null], or whose [message] member is missing or
    [null], is not refused with the [ValidateError]: the claim fails with
    the [TypeError] of the property read, [message] of the payload in the
    first case, [source_chain] of the missing claim in the others; nothing
    reaches the chain. *)
Theorem X2_nullish_message
  (env : ProcessEnv) (Connection_new : EnvVal -> Connection)
  (claimMessage : AirdropClaimRequest) (data : JsValue) :
  JSON.parse (wallet_message claimMessage) = inr data ->
  (data = VNull ->
   claim env Connection_new claimMessage =
     (inl (TypeError (ReadPropertyOfNullish VNull (js "message"))), [])) /\
  (forall message,
      getProp data (js "message") = inr message ->
      message = VUndef \/ message = VNull ->
      claim env Connection_new claimMessage =
        (inl (TypeError (ReadPropertyOfNullish message (js "source_chain"))),
         [])).
Proof.
  intros Hd. split.
  - intros ->. rewrite claim_eq, Hd. reflexivity.
  - intros message Hm Hnull. rewrite claim_eq, Hd.
    unfold parseClaimInfo. rewrite Hm.
    destruct Hnull as [-> | ->]; reflexivity.
Qed.

(** The payloads [null], [{}] and [{"message":null}]. *)
Lemma X2_nullish_message_witness :
  claim Example.env Example.Connection_new Example.null_payload =
    (inl (TypeError (ReadPropertyOfNullish VNull (js "message"))), []) /\
  claim Example.env Example.Connection_new Example.empty_payload =
    (inl (TypeError (ReadPropertyOfNullish VUndef (js "source_chain"))), []) /\
  claim Example.env Example.Connection_new Example.null_message =
    (inl (TypeError (ReadPropertyOfNullish VNull (js "source_chain"))), []).
Proof.
  split; [|split].
  - apply (proj1 (X2_nullish_message Example.env Example.Connection_new
                    Example.null_payload VNull eq_refl) eq_refl).
  - apply (proj2 (X2_nullish_message Example.env Example.Connection_new
                    Example.empty_payload (VObj []) eq_refl) VUndef eq_refl).
    left. reflexivity.
  - apply (proj2 (X2_nullish_message Example.env Example.Connection_new
                    Example.null_message (VObj [(js "message", VNull)])
                    eq_refl) VNull eq_refl).
    right. reflexivity.
Defined.

(** ** The resolver *)

Lemma filter_first_split {A} (p : A -> bool) (l : list A) x rest :
  filter p l = x :: rest ->
  exists before after,
    l = before ++ x :: after /\
    Forall (fun y => p y = false) before /\ p x = true /\
    filter p after = rest.
Proof.
  induction l as [|y l IH]; cbn [filter]; [discriminate|].
  destruct (p y) eqn:Ey.
  - intros H. injection H as -> <-. exists [], l. auto.
  - intros H. destruct (IH H) as (before & after & -> & Hb & Hx & Ha).
    exists (y :: before), after. auto.
Qed.

Lemma filter_first_app {A} (p : A -> bool) (before after : list A) x :
  Forall (fun y => p y = false) before -> p x = true ->
  filter p (before ++ x :: after) = x :: filter p after.
Proof.
  induction 1 as [|y before Hy _ IH]; intros Hx; cbn [app filter].
  - rewrite Hx. reflexivity.
  - rewrite Hy. auto.
Qed.

(** X3. On the list the gateway answers with, the resolver succeeds
    exactly when the list holds a gas coin and one single object of the
    oracle type; the pair is then "0x" before the id of the first gas coin
    in the order of the list, and "0x" before the id of the oracle
    object. *)
Theorem X3_resolver_selects
  (env : ProcessEnv) (connection : Connection) (address : EnvVal)
  (objects : list SuiObject.t) (gasObjectId oracleObjectId : JsString) :
  bulkFetchObjects connection address = inr objects ->
  (outcome (getGasAndOracle env connection address)
     = inr (gasObjectId, oracleObjectId) <->
   exists before g after o,
     objects = before ++ g :: after /\
     Forall (fun x => SuiObject.objType x <> GAS_COIN_TYPE) before /\
     SuiObject.objType g = GAS_COIN_TYPE /\
     filter (fun x => jsstr_eqb (SuiObject.objType x)
                        (oracle_object_identifier env)) objects = [o] /\
     gasObjectId = js "0x" ++ SuiObject.id g /\
     oracleObjectId = js "0x" ++ SuiObject.id o).
Proof.
  intros Hf. rewrite getGasAndOracle_eq, Hf. unfold outcome. cbn [fst].
  unfold resolve.
  change (filter (isOracle env) objects) with
    (filter (fun x => jsstr_eqb (SuiObject.objType x)
                        (oracle_object_identifier env)) objects).
  split.
  - destruct (filter isGasCoin objects) as [|g gs] eqn:Eg; [discriminate|].
    destruct (filter (fun x => jsstr_eqb (SuiObject.objType x)
                                 (oracle_object_identifier env)) objects)
      as [|o [|o' os]] eqn:Eo; try discriminate.
    intros [= <- <-].
    destruct (filter_first_split _ _ _ _ Eg) as (before & after & E & Hb & Hg & _).
    exists before, g, after, o. repeat split; auto.
    + eapply Forall_impl; [|exact Hb]. cbv beta. unfold isGasCoin.
      intros x Hx Heq. rewrite Heq, jsstr_eqb_refl in Hx. discriminate.
    + apply jsstr_eqb_eq, Hg.
  - intros (before & g & after & o & E & Hb & Hg & Eo & -> & ->).
    rewrite Eo. rewrite E at 1.
    rewrite filter_first_app; [reflexivity| |].
    + eapply Forall_impl; [|exact Hb]. cbv beta. unfold isGasCoin.
      intros x Hx. destruct (jsstr_eqb _ GAS_COIN_TYPE) eqn:Ex; [|reflexivity].
      apply jsstr_eqb_eq in Ex. contradiction.
    + unfold isGasCoin. rewrite Hg. apply jsstr_eqb_refl.
Qed.

(** With two gas coins around the oracle object, the first one pays. *)
Lemma X3_resolver_selects_witness :
  outcome (getGasAndOracle Example.env
             (Example.gateway Example.two_gas Example.created None) None)
    = inr (js "0x1f0a", js "0x9c3b").
Proof.
  apply (proj2 (X3_resolver_selects Example.env
                  (Example.gateway Example.two_gas Example.created None) None
                  Example.two_gas (js "0x1f0a") (js "0x9c3b") eq_refl)).
  exists [Example.otherObject], Example.gasObject,
         [Example.oracleObject; Example.secondGasObject], Example.oracleObject.
  repeat split; try reflexivity.
  repeat constructor. vm_compute. discriminate.
Defined.

(** ** The order of the effects *)

(** X4. Whatever the request, the environment and the gateway, a claim
    does one of four things: nothing; the connection, then one query; these
    and then one submission; these and then one line on the console. It
    answers in the last case only. So no claim submits twice, submits
    before it has queried, or queries before it has validated. *)
Theorem X4_effects_in_order
  (env : ProcessEnv) (Connection_new : EnvVal -> Connection)
  (claimMessage : AirdropClaimRequest) :
  let opened := NewConnection (SUI_GATEWAY_ENDPOINT env) in
  let queried := BulkFetchObjects (ORACLE_ADDRESS env) in
  (exists e, claim env Connection_new claimMessage = (inl e, [])) \/
  (exists e, claim env Connection_new claimMessage = (inl e, [opened; queried])) \/
  (exists e request,
      claim env Connection_new claimMessage =
        (inl e, [opened; queried; CallMoveFunction request])) \/
  (exists resp request o,
      claim env Connection_new claimMessage =
        (inr resp,
         [opened; queried; CallMoveFunction request; ConsoleInfo [o]])).
Proof.
  cbv zeta. rewrite claim_eq.
  destruct (JSON.parse (wallet_message claimMessage)) as [e | data];
    [left; eauto|].
  destruct (parseClaimInfo data) as [e | claimInfo] eqn:Hp; [left; eauto|].
  destruct (parseClaimInfo_inr _ _ Hp) as (props & -> & _ & _).
  cbv zeta. rewrite executeMoveCall_eq. cbv zeta.
  destruct (outcome (getGasAndOracle env _ (ORACLE_ADDRESS env)))
    as [e | [gas oracle]]; [right; left; eauto|].
  destruct (ToNumber (member props (js "source_token_id"))) as [e | n];
    [right; left; eauto|].
  unfold submit.
  destruct (callMoveFunction _ _) as [e | result];
    [right; right; left; eauto|].
  destruct (created_objects (objectEffectsSummary result)) as [|o [|o' os]];
    [right; right; left; eauto | right; right; right; eauto
    | right; right; left; eauto].
Qed.

(** X5. When the query of the owned objects fails, the claim fails with
    the error of the gateway, as it is, after the connection and that one
    query; nothing is submitted. *)
Theorem X5_query_failure_propagates
  (env : ProcessEnv) (Connection_new : EnvVal -> Connection)
  (claimMessage : AirdropClaimRequest) (data claimInfo : JsValue) (e : Exn) :
  JSON.parse (wallet_message claimMessage) = inr data ->
  parseClaimInfo data = inr claimInfo ->
  bulkFetchObjects (Connection_new (SUI_GATEWAY_ENDPOINT env))
    (ORACLE_ADDRESS env) = inl e ->
  claim env Connection_new claimMessage =
    (inl e, [NewConnection (SUI_GATEWAY_ENDPOINT env);
             BulkFetchObjects (ORACLE_ADDRESS env)]).
Proof.
  intros Hd Hp Hf. rewrite claim_eq, Hd, Hp. cbv zeta.
  destruct (parseClaimInfo_inr _ _ Hp) as (props & -> & _ & _).
  rewrite executeMoveCall_eq. cbv zeta.
  rewrite getGasAndOracle_eq, Hf. reflexivity.
Qed.

(** A gateway that refuses the query. *)
Lemma X5_query_failure_propagates_witness :
  claim Example.env Example.failing_query Example.request =
    (inl Example.failure,
     [NewConnection (SUI_GATEWAY_ENDPOINT Example.env);
      BulkFetchObjects (ORACLE_ADDRESS Example.env)]).
Proof.
  apply (X5_query_failure_propagates Example.env Example.failing_query
           Example.request Example.data Example.claimInfo Example.failure).
  - vm_compute. reflexivity.
  - vm_compute. reflexivity.
  - reflexivity.
Defined.

(** X6. When the submission fails, the claim fails with the error of the
    gateway, as it is; the submission is its last effect, and it was made
    once. *)
Theorem X6_submission_failure_propagates
  (env : ProcessEnv) (Connection_new : EnvVal -> Connection)
  (claimMessage : AirdropClaimRequest) (request : MoveCallRequest) (e : Exn) :
  In (CallMoveFunction request)
    (trace (claim env Connection_new claimMessage)) ->
  callMoveFunction (Connection_new (SUI_GATEWAY_ENDPOINT env)) request = inl e ->
  claim env Connection_new claimMessage =
    (inl e, [NewConnection (SUI_GATEWAY_ENDPOINT env);
             BulkFetchObjects (ORACLE_ADDRESS env);
             CallMoveFunction request]).
Proof.
  intros Hin Hcall.
  destruct (claim_request _ _ _ _ Hin)
    as (data & props & gas & oracle & n & Hd & Hp & Hr & Hn & ->).
  pose proof (claim_submits env Connection_new _ _ _ _ _ _ Hd Hp Hr Hn) as H.
  cbv zeta in H. rewrite H. unfold outcome, trace, submit. rewrite Hcall.
  reflexivity.
Qed.

(** A gateway that refuses the submission. *)
Lemma X6_submission_failure_propagates_witness :
  exists request,
    claim Example.env Example.failing_submission Example.request =
      (inl Example.failure,
       [NewConnection (SUI_GATEWAY_ENDPOINT Example.env);
        BulkFetchObjects (ORACLE_ADDRESS Example.env);
        CallMoveFunction request]).
Proof.
  assert (Hin : exists request,
             In (CallMoveFunction request)
               (trace (claim Example.env Example.failing_submission
                         Example.request))).
  { vm_compute. eexists. right. right. left. reflexivity. }
  destruct Hin as (request & Hin). exists request.
  apply (X6_submission_failure_propagates Example.env
           Example.failing_submission Example.request request
           Example.failure Hin).
  reflexivity.
Defined.

(** X7. The token id is converted after the objects are resolved: when
    the conversion throws, the claim fails with that error after the
    connection and the query, and nothing is submitted. *)
Theorem X7_conversion_failure_after_query
  (env : ProcessEnv) (Connection_new : EnvVal -> Connection)
  (claimMessage : AirdropClaimRequest) (data claimInfo source_token_id : JsValue)
  (pair : JsString * JsString) (e : Exn) :
  JSON.parse (wallet_message claimMessage) = inr data ->
  parseClaimInfo data = inr claimInfo ->
  outcome (getGasAndOracle env (Connection_new (SUI_GATEWAY_ENDPOINT env))
             (ORACLE_ADDRESS env)) = inr pair ->
  getProp claimInfo (js "source_token_id") = inr source_token_id ->
  ToNumber source_token_id = inl e ->
  claim env Connection_new claimMessage =
    (inl e, [NewConnection (SUI_GATEWAY_ENDPOINT env);
             BulkFetchObjects (ORACLE_ADDRESS env)]).
Proof.
  intros Hd Hp Hr Ht Hn. rewrite claim_eq, Hd, Hp. cbv zeta.
  destruct (parseClaimInfo_inr _ _ Hp) as (props & -> & _ & _).
  rewrite getProp_VObj in Ht. injection Ht as <-.
  rewrite executeMoveCall_eq. cbv zeta. rewrite Hr. destruct pair.
  rewrite Hn. reflexivity.
Qed.

(** A token id that is an object with a member [toString]. *)
Lemma X7_conversion_failure_after_query_witness :
  claim Example.env Example.Connection_new Example.hidden_toString =
    (inl (TypeError CannotConvertToPrimitive),
     [NewConnection (SUI_GATEWAY_ENDPOINT Example.env);
      BulkFetchObjects (ORACLE_ADDRESS Example.env)]).
Proof.
  destruct (JSON.parse (wallet_message Example.hidden_toString))
    as [e | data] eqn:Hd; [vm_compute in Hd; discriminate|].
  destruct (parseClaimInfo data) as [e | claimInfo] eqn:Hp;
    [vm_compute in Hd; injection Hd as <-; vm_compute in Hp; discriminate|].
  apply (X7_conversion_failure_after_query Example.env Example.Connection_new
           Example.hidden_toString data claimInfo
           (VObj [(js "toString", VNum (Number_of_Z 1))])
           (js "0x1f0a", js "0x9c3b") _ Hd Hp).
  - vm_compute. reflexivity.
  - vm_compute in Hd. injection Hd as <-. vm_compute in Hp.
    injection Hp as <-. vm_compute. reflexivity.
  - vm_compute. reflexivity.
Defined.

(** ** The invocation *)

(** X8. Every invocation a claim submits names the entry function of the
    environment and the package and module of [getPackageAndModule]; its
    gas object and its first argument are the two identifiers of one and
    the same resolution. *)
Theorem X8_request_coordinates
  (env : ProcessEnv) (Connection_new : EnvVal -> Connection)
  (claimMessage : AirdropClaimRequest) (request : MoveCallRequest) :
  In (CallMoveFunction request)
    (trace (claim env Connection_new claimMessage)) ->
  function request = ORACLE_CONTRACT_ENTRY_FUNCTION env /\
  (packageObjectId request, module request) = getPackageAndModule env /\
  exists oracleObjectId,
    outcome (getGasAndOracle env (Connection_new (SUI_GATEWAY_ENDPOINT env))
               (ORACLE_ADDRESS env))
      = inr (gasObjectId request, oracleObjectId) /\
    nth_error (args request) 0 = Some (VStr oracleObjectId).
Proof.
  intros Hin.
  destruct (claim_request _ _ _ _ Hin)
    as (data & props & gas & oracle & n & _ & _ & Hr & _ & ->).
  repeat split. exists oracle. split; [exact Hr | reflexivity].
Qed.

(** The request of the documentation under the default package and
    module. *)
Lemma X8_request_coordinates_witness :
  exists request,
    In (CallMoveFunction request)
      (trace (claim Example.env Example.Connection_new Example.request)) /\
    function request = Some (js "claim") /\
    (packageObjectId request, module request)
      = (js "0x2", js "CrossChainAirdrop") /\
    gasObjectId request = js "0x1f0a".
Proof.
  assert (Hin : exists request,
             In (CallMoveFunction request)
               (trace (claim Example.env Example.Connection_new
                         Example.request))).
  { vm_compute. eexists. right. right. left. reflexivity. }
  destruct Hin as (request & Hin). exists request.
  destruct (X8_request_coordinates Example.env Example.Connection_new
              Example.request request Hin)
    as (Hf & Hpm & oracle & Hr & _).
  repeat split; auto.
  assert (E : outcome (getGasAndOracle Example.env
                         (Example.Connection_new
                            (SUI_GATEWAY_ENDPOINT Example.env))
                         (ORACLE_ADDRESS Example.env))
              = inr (js "0x1f0a", js "0x9c3b")) by (vm_compute; reflexivity).
  rewrite E in Hr. injection Hr as Hg _. symmetry. exact Hg.
Defined.

(** X9. [getPackageAndModule] never gives an empty name: a variable that
    is set and not empty is taken as it is, one that is unset or empty
    gives "0x2" for the package and "CrossChainAirdrop" for the module. *)
Theorem X9_package_and_module_defaults (env : ProcessEnv) :
  fst (getPackageAndModule env) <> [] /\
  snd (getPackageAndModule env) <> [] /\
  (forall s, ORACLE_CONTRACT_PACKAGE env = Some s -> s <> [] ->
             fst (getPackageAndModule env) = s) /\
  (forall s, ORACLE_CONTRACT_MODULE env = Some s -> s <> [] ->
             snd (getPackageAndModule env) = s) /\
  (ORACLE_CONTRACT_PACKAGE env = None \/ ORACLE_CONTRACT_PACKAGE env = Some [] ->
   fst (getPackageAndModule env) = js "0x2") /\
  (ORACLE_CONTRACT_MODULE env = None \/ ORACLE_CONTRACT_MODULE env = Some [] ->
   snd (getPackageAndModule env) = js "CrossChainAirdrop").
Proof.
  unfold getPackageAndModule. cbn [fst snd]. unfold orDefault.
  repeat split.
  - destruct (ORACLE_CONTRACT_PACKAGE env) as [[|c s]|];
      intros H; cbv in H; inversion H.
  - destruct (ORACLE_CONTRACT_MODULE env) as [[|c s]|];
      intros H; cbv in H; inversion H.
  - intros s -> Hs. destruct s; [congruence | reflexivity].
  - intros s -> Hs. destruct s; [congruence | reflexivity].
  - intros [-> | ->]; reflexivity.
  - intros [-> | ->]; reflexivity.
Qed.

(** A package that is set and a module set to the empty string. *)
Lemma X9_package_and_module_defaults_witness :
  getPackageAndModule Example.env_set = (js "0x5a", js "CrossChainAirdrop").
Proof.
  destruct (X9_package_and_module_defaults Example.env_set)
    as (_ & _ & Hp & _ & _ & Hm).
  specialize (Hp (js "0x5a") eq_refl).
  specialize (Hm (or_intror eq_refl)).
  rewrite (surjective_pairing (getPackageAndModule Example.env_set)).
  rewrite Hp, Hm; [reflexivity | discriminate].
Defined.

(** ** What a claim does not depend on *)

(** X10. The signature is never read: two requests with the same
    [wallet_message] get the same outcome and cause the same effects,
    whatever their signatures. *)
Theorem X10_signature_ignored
  (env : ProcessEnv) (Connection_new : EnvVal -> Connection)
  (claimMessage claimMessage' : AirdropClaimRequest) :
  wallet_message claimMessage = wallet_message claimMessage' ->
  claim env Connection_new claimMessage = claim env Connection_new claimMessage'.
Proof.
  intros H. rewrite !claim_eq, H. reflexivity.
Qed.

(** The request of the documentation, signed "abc" or not signed. *)
Lemma X10_signature_ignored_witness :
  claim Example.env Example.Connection_new Example.request =
  claim Example.env Example.Connection_new
    {| wallet_message := wallet_message Example.request; signature := [] |}.
Proof.
  apply (X10_signature_ignored Example.env Example.Connection_new
           Example.request
           {| wallet_message := wallet_message Example.request;
              signature := [] |}).
  reflexivity.
Defined.

(** X11. Of an accepted payload a claim uses four members of the claim
    and nothing else: two payloads whose claims are accepted and agree on
    [source_chain], [source_contract_address], [source_token_id] and
    [destination_sui_address] get the same outcome and cause the same
    effects, whatever [source_owner_address], the further members of the
    claim and the rest of the payload are. *)
Theorem X11_four_members_decide
  (env : ProcessEnv) (Connection_new : EnvVal -> Connection)
  (claimMessage claimMessage' : AirdropClaimRequest)
  (data data' claimInfo claimInfo' : JsValue) :
  JSON.parse (wallet_message claimMessage) = inr data ->
  JSON.parse (wallet_message claimMessage') = inr data' ->
  parseClaimInfo data = inr claimInfo ->
  parseClaimInfo data' = inr claimInfo' ->
  (forall k,
      In k [js "source_chain"; js "source_contract_address";
            js "source_token_id"; js "destination_sui_address"] ->
      getProp claimInfo k = getProp claimInfo' k) ->
  claim env Connection_new claimMessage = claim env Connection_new claimMessage'.
Proof.
  intros Hd Hd' Hp Hp' Hsame. rewrite !claim_eq, Hd, Hd', Hp, Hp'.
  destruct (parseClaimInfo_inr _ _ Hp) as (props & -> & _ & _).
  destruct (parseClaimInfo_inr _ _ Hp') as (props' & -> & _ & _).
  assert (Hm : forall k,
             In k [js "source_chain"; js "source_contract_address";
                   js "source_token_id"; js "destination_sui_address"] ->
             member props k = member props' k).
  { intros k Hk. specialize (Hsame k Hk). rewrite !getProp_VObj in Hsame.
    congruence. }
  cbv zeta. rewrite !executeMoveCall_eq. cbn [ownProps]. unfold response.
  rewrite <- (Hm (js "source_chain")) by (cbn; auto).
  rewrite <- (Hm (js "source_contract_address")) by (cbn; auto).
  rewrite <- (Hm (js "source_token_id")) by (cbn; auto).
  rewrite <- (Hm (js "destination_sui_address")) by (cbn; auto 6).
  reflexivity.
Qed.

(** The claim of the documentation under another owner, with a member
    more and without the typed-data members. *)
Lemma X11_four_members_decide_witness :
  claim Example.env Example.Connection_new Example.request =
  claim Example.env Example.Connection_new Example.other_owner.
Proof.
  destruct (JSON.parse (wallet_message Example.other_owner))
    as [e | data'] eqn:Hd'; [vm_compute in Hd'; discriminate|].
  destruct (parseClaimInfo data') as [e | claimInfo'] eqn:Hp';
    [vm_compute in Hd'; injection Hd' as <-; vm_compute in Hp'; discriminate|].
  apply (X11_four_members_decide Example.env Example.Connection_new
           Example.request Example.other_owner
           Example.data data' Example.claimInfo claimInfo');
    try assumption; try (vm_compute; reflexivity).
  vm_compute in Hd'. injection Hd' as <-. vm_compute in Hp'.
  injection Hp' as <-.
  intros k [<- | [<- | [<- | [<- | []]]]]; vm_compute; reflexivity.
Defined.

(** X12. The response says nothing of what happened on the chain: two
    claims of the same [wallet_message] that complete, under whatever
    environments and gateways, with whatever objects resolved and created,
    answer the same. *)
Theorem X12_response_from_message_alone
  (env env' : ProcessEnv) (Connection_new Connection_new' : EnvVal -> Connection)
  (claimMessage claimMessage' : AirdropClaimRequest)
  (resp resp' : AirdropClaimResponse) :
  wallet_message claimMessage = wallet_message claimMessage' ->
  outcome (claim env Connection_new claimMessage) = inr resp ->
  outcome (claim env' Connection_new' claimMessage') = inr resp' ->
  resp = resp'.
Proof.
  intros Hw H H'.
  destruct (claim_success _ _ _ _ H)
    as (data & props & gas & oracle & n & result & o &
        Hd & Hp & _ & _ & _ & _ & ->).
  destruct (claim_success _ _ _ _ H')
    as (data' & props' & gas' & oracle' & n' & result' & o' &
        Hd' & Hp' & _ & _ & _ & _ & ->).
  rewrite Hw, Hd' in Hd. injection Hd as <-.
  rewrite Hp' in Hp. injection Hp as <-. reflexivity.
Qed.

(** The request of the documentation against two deployments that differ
    in the environment, the owned objects and the object created. *)
Lemma X12_response_from_message_alone_witness :
  exists resp,
    outcome (claim Example.env
               (Example.gateway Example.objects Example.created)
               Example.request) = inr resp /\
    outcome (claim Example.env_unset
               (Example.gateway
                  [Example.secondGasObject;
                   SuiObject.mk (js "5d2c")
                     (js "0x2::CrossChainAirdrop::undefined")]
                  Example.created')
               Example.request) = inr resp.
Proof.
  destruct (outcome (claim Example.env
                       (Example.gateway Example.objects Example.created)
                       Example.request))
    as [e | resp] eqn:E; [vm_compute in E; discriminate|].
  destruct (outcome (claim Example.env_unset
                       (Example.gateway
                          [Example.secondGasObject;
                           SuiObject.mk (js "5d2c")
                             (js "0x2::CrossChainAirdrop::undefined")]
                          Example.created')
                       Example.request))
    as [e | resp'] eqn:E'; [vm_compute in E'; discriminate|].
  exists resp. split; [reflexivity|]. f_equal. symmetry.
  apply (X12_response_from_message_alone _ _ _ _ _ _ _ _ eq_refl E E').
Defined.

(** ** The submission and its result *)

(** X13. [executeMoveCall] returns the id of the one object the
    submission created, as the gateway gives it, and writes to the console
    exactly when it returns: a failed call writes nothing. *)
Theorem X13_executeMoveCall_returns_created_id
  (env : ProcessEnv) (connection : Connection)
  (props : list (JsString * JsValue)) :
  (forall id,
      outcome (executeMoveCall env connection (VObj props)) = inr id ->
      exists request result o,
        callMoveFunction connection request = inr result /\
        created_objects (objectEffectsSummary result) = [o] /\
        id = Created.id o /\
        trace (executeMoveCall env connection (VObj props)) =
          [BulkFetchObjects (ORACLE_ADDRESS env); CallMoveFunction request;
           ConsoleInfo [o]]) /\
  (forall created,
      In (ConsoleInfo created)
        (trace (executeMoveCall env connection (VObj props))) ->
      exists id, outcome (executeMoveCall env connection (VObj props)) = inr id).
Proof.
  rewrite executeMoveCall_eq. cbv zeta.
  destruct (outcome (getGasAndOracle env connection (ORACLE_ADDRESS env)))
    as [e | [gas oracle]].
  { split; [discriminate|]. cbn. intros created [H | []]. discriminate. }
  destruct (ToNumber (member props (js "source_token_id"))) as [e | n].
  { split; [discriminate|]. cbn. intros created [H | []]. discriminate. }
  set (request := moveCallRequest _ _ _ _ _ _ _). unfold submit.
  destruct (callMoveFunction connection request) as [e | result] eqn:Hc.
  { split; [discriminate|]. cbn. intros created [H | [H | []]]; discriminate. }
  destruct (created_objects (objectEffectsSummary result)) as [|o [|o' os]] eqn:Hcr.
  - split; [discriminate|]. cbn. intros created [H | [H | []]]; discriminate.
  - split.
    + cbn. intros id [= <-]. exists request, result, o. auto.
    + intros created _. eexists. reflexivity.
  - split; [discriminate|]. cbn. intros created [H | [H | []]]; discriminate.
Qed.

(** The claim of the documentation: the id the gateway reports, without
    prefix. *)
Lemma X13_executeMoveCall_returns_created_id_witness :
  outcome (executeMoveCall Example.env (Example.Connection_new None)
             Example.claimInfo)
    = inr (js "7bc832ec31709638cd8d9323e90edf332gff4389") /\
  exists request result o,
    callMoveFunction (Example.Connection_new None) request = inr result /\
    created_objects (objectEffectsSummary result) = [o] /\
    js "7bc832ec31709638cd8d9323e90edf332gff4389" = Created.id o.
Proof.
  split; [vm_compute; reflexivity|].
  destruct (proj1 (X13_executeMoveCall_returns_created_id Example.env
                     (Example.Connection_new None) (ownProps Example.claimInfo))
              (js "7bc832ec31709638cd8d9323e90edf332gff4389"))
    as (request & result & o & Hc & Hcr & Hid & _);
    [vm_compute; reflexivity|].
  exists request, result, o. auto.
Defined.

(** ** The identifiers *)

(** X14. The normalization keeps identifiers apart: two raw ids get the
    same normalized id only when they are the same, and the normalized id
    is two code units longer than the raw one. *)
Theorem X14_formatObjectId_injective (id id' : JsString) :
  (formatObjectId id = formatObjectId id' <-> id = id') /\
  List.length (formatObjectId id) = (2 + List.length id)%nat.
Proof.
  split; [split|].
  - unfold formatObjectId. apply app_inv_head.
  - intros ->. reflexivity.
  - unfold formatObjectId. rewrite length_app. reflexivity.
Qed.

(** ** When a claim completes *)

(** X16. A claim answers exactly when every stage goes through: the text
    is JSON, the claim in it is accepted, the resolver gives a pair, the
    token id converts, and the submission of the request built from these
    creates one single object. The answer is then the three members of the
    claim and the fixed link. *)
Theorem X16_claim_completes_iff
  (env : ProcessEnv) (Connection_new : EnvVal -> Connection)
  (claimMessage : AirdropClaimRequest) (resp : AirdropClaimResponse) :
  outcome (claim env Connection_new claimMessage) = inr resp <->
  exists data props gasObjectId oracleObjectId n result o,
    JSON.parse (wallet_message claimMessage) = inr data /\
    parseClaimInfo data = inr (VObj props) /\
    outcome (getGasAndOracle env (Connection_new (SUI_GATEWAY_ENDPOINT env))
               (ORACLE_ADDRESS env)) = inr (gasObjectId, oracleObjectId) /\
    ToNumber (member props (js "source_token_id")) = inr n /\
    callMoveFunction (Connection_new (SUI_GATEWAY_ENDPOINT env))
      (moveCallRequest env (ORACLE_ADDRESS env) gasObjectId oracleObjectId
         (member props (js "destination_sui_address"))
         (member props (js "source_contract_address")) n) = inr result /\
    created_objects (objectEffectsSummary result) = [o] /\
    resp = {| source_chain := member props (js "source_chain");
              source_contract_address :=
                member props (js "source_contract_address");
              source_token_id := member props (js "source_token_id");
              sui_explorer_link :=
                js "https://djgd7fpxio1yh.cloudfront.net/objects/7bc832ec31709638cd8d9323e90edf332gff4389" |}.
Proof.
  split.
  - intros H. destruct (claim_success _ _ _ _ H)
      as (data & props & gas & oracle & n & result & o & H').
    exists data, props, gas, oracle, n, result, o. exact H'.
  - intros (data & props & gas & oracle & n & result & o &
            Hd & Hp & Hr & Hn & Hc & Hcr & ->).
    pose proof (claim_submits env Connection_new _ _ _ _ _ _ Hd Hp Hr Hn) as H.
    cbv zeta in H. rewrite H. unfold outcome, submit. cbn [fst].
    rewrite Hc, Hcr. reflexivity.
Qed.

(** ** An environment that is not set *)

(** X17. The resolver does not notice that the admin identifier of the
    oracle type is unset: it looks for objects whose type ends in
    "::undefined". An account that owns no object of that type gets no
    pair, whatever else it owns. *)
Theorem X17_unset_admin_identifier
  (env : ProcessEnv) (connection : Connection) (address : EnvVal)
  (objects : list SuiObject.t) :
  ORACLE_CONTRACT_ADMIN_IDENTIFIER env = None ->
  bulkFetchObjects connection address = inr objects ->
  oracle_object_identifier env =
    fst (getPackageAndModule env) ++ js "::" ++ snd (getPackageAndModule env)
    ++ js "::undefined" /\
  ((forall o, In o objects ->
              SuiObject.objType o <>
                fst (getPackageAndModule env) ++ js "::"
                ++ snd (getPackageAndModule env) ++ js "::undefined") ->
   forall pair, outcome (getGasAndOracle env connection address) <> inr pair).
Proof.
  intros Hadmin Hf.
  assert (Hid : oracle_object_identifier env =
                fst (getPackageAndModule env) ++ js "::"
                ++ snd (getPackageAndModule env) ++ js "::undefined").
  { unfold oracle_object_identifier. rewrite Hadmin. cbn [join envToString].
    rewrite <- !app_assoc. reflexivity. }
  split; [exact Hid|].
  intros Hnone pair. rewrite getGasAndOracle_eq, Hf. unfold outcome. cbn [fst].
  unfold resolve.
  destruct (filter isGasCoin objects) as [|g gs]; [discriminate|].
  rewrite (filter_none (isOracle env) objects); [discriminate|].
  intros o Ho. unfold isOracle. rewrite Hid.
  destruct (jsstr_eqb _ _) eqn:E; [|reflexivity].
  apply jsstr_eqb_eq in E. destruct (Hnone o Ho E).
Qed.

(** The account of the deployment, whose oracle object has the type
    "0x2::CrossChainAirdrop::CrossChainAirdropOracle", under an environment
    with nothing set. *)
Lemma X17_unset_admin_identifier_witness :
  oracle_object_identifier Example.env_unset
    = js "0x2::CrossChainAirdrop::undefined" /\
  outcome (getGasAndOracle Example.env_unset
             (Example.gateway Example.objects Example.created None) None)
    = inl (Error (js "Unexpected number of oracle object: ")).
Proof.
  destruct (X17_unset_admin_identifier Example.env_unset
              (Example.gateway Example.objects Example.created None) None
              Example.objects eq_refl eq_refl) as (Hid & Hnone).
  split; [exact Hid|].
  assert (Hobjects : forall o, In o Example.objects ->
                       SuiObject.objType o <>
                         fst (getPackageAndModule Example.env_unset) ++ js "::"
                         ++ snd (getPackageAndModule Example.env_unset)
                         ++ js "::undefined").
  { intros o [<- | [<- | [<- | []]]]; vm_compute; discriminate. }
  specialize (Hnone Hobjects).
  destruct (outcome (getGasAndOracle Example.env_unset
                       (Example.gateway Example.objects Example.created None)
                       None)) as [e | pair] eqn:E.
  - vm_compute in E. injection E as <-. vm_compute. reflexivity.
  - destruct (Hnone pair eq_refl).
Defined.
